(** * pdf2jpeg: first page of a PDF to a resized JPEG

    A shallow embedding of [pdf_to_jpg_converter.py] and [web_app.py].

    - Python [str] values are [string]s of 8-bit characters; [str.lower]
      and [str.isdigit] are the ASCII ones.
    - [pathlib.Path] is the POSIX flavour (the Docker/Linux deployment):
      a root and a list of components.
    - Python [float] is IEEE binary64, taken from [SpecFloat] with
      precision 53 and maximal exponent 1024.
    - The file system, the rasteriser (pdf2image), Pillow, werkzeug and the
      clock are not code of this repository: they are the fields of an
      [Env] record, and every function of the program takes the [Env] it
      runs in.
    - Exceptions are values of [result]; the calls that change the world
      leave an [event] in a trace.  Of the lines written to standard
      output, only the messages of the parameter validation of [main] are
      kept. *)

From Stdlib Require Import Floats.SpecFloat Strings.Ascii Strings.String ZArith.
From stdpp Require Import base strings list sorting gmap.

Open Scope string_scope.
Open Scope list_scope.
Open Scope Z_scope.

(* ===================================================================== *)
(** ** Python strings *)
(* ===================================================================== *)

Module PyStr.

Definition is_upper (c : ascii) : bool :=
    let n := nat_of_ascii c in (Nat.leb 65 n && Nat.leb n 90)%bool.

Definition lower_char (c : ascii) : ascii :=
    if is_upper c then ascii_of_nat (nat_of_ascii c + 32) else c.

  (** [s.lower()] *)
Fixpoint lower (s : string) : string :=
    match s with
    | EmptyString => EmptyString
    | String c s' => String (lower_char c) (lower s')
    end.

  (** [c in s] for a one-character [c] *)
Fixpoint contains (c : ascii) (s : string) : bool :=
    match s with
    | EmptyString => false
    | String d s' => if Ascii.eqb c d then true else contains c s'
    end.

Definition is_digit_char (c : ascii) : bool :=
    let n := nat_of_ascii c in (Nat.leb 48 n && Nat.leb n 57)%bool.

Fixpoint all_digits (s : string) : bool :=
    match s with
    | EmptyString => true
    | String c s' => (is_digit_char c && all_digits s')%bool
    end.

  (** [s.isdigit()]: false on the empty string *)
Definition isdigit (s : string) : bool :=
    match s with
    | EmptyString => false
    | _ => all_digits s
    end.

Fixpoint int_acc (acc : Z) (s : string) : Z :=
    match s with
    | EmptyString => acc
    | String c s' => int_acc (10 * acc + (Z.of_nat (nat_of_ascii c) - 48)) s'
    end.

  (** [int(s)] on a string of decimal digits *)
Definition int_of_digits (s : string) : Z := int_acc 0 s.

  (** [s.endswith(t)] *)
Definition endswith (s t : string) : bool :=
    let n := String.length s in
    let k := String.length t in
    (Nat.leb k n && String.eqb (substring (n - k) k s) t)%bool.

  (** [s.startswith(t)] *)
Definition startswith (s t : string) : bool := String.prefix t s.

  (** [s.split(c)]: the pieces between the occurrences of [c] *)
Fixpoint split_acc (c : ascii) (cur : string) (s : string) : list string :=
    match s with
    | EmptyString => [cur]
    | String d s' =>
        if Ascii.eqb c d then cur :: split_acc c EmptyString s'
        else split_acc c (cur +:+ String d EmptyString) s'
    end.

Definition split (c : ascii) (s : string) : list string :=
    split_acc c EmptyString s.

  (** [sep.join(parts)] *)
Definition join (sep : string) (parts : list string) : string :=
    String.concat sep parts.

  (** [s.rfind(c)]: the index of the last [c], if any *)
Fixpoint rfind_from (c : ascii) (i : nat) (s : string) : option nat :=
    match s with
    | EmptyString => None
    | String d s' =>
        match rfind_from c (S i) s' with
        | Some j => Some j
        | None => if Ascii.eqb c d then Some i else None
        end
    end.

Definition rfind (c : ascii) (s : string) : option nat := rfind_from c 0 s.

  (** [s.rsplit(c, 1)[1]] where [c in s]: what follows the last [c] *)
Definition after_last (c : ascii) (s : string) : string :=
    match rfind c s with
    | Some i => substring (S i) (String.length s - S i) s
    | None => s
    end.

End PyStr.

(* ===================================================================== *)
(** ** pathlib, POSIX flavour *)
(* ===================================================================== *)

Module PyPath.

  (** A parsed path: the root ([""], ["/"] or ["//"]) and its components. *)
Record t := mk { root : string; parts : list string }.

Definition parse_root (s : string) : string :=
    if PyStr.startswith s "///" then "/"
    else if PyStr.startswith s "//" then "//"
    else if PyStr.startswith s "/" then "/"
    else "".

Definition keep_part (p : string) : bool :=
    negb (String.eqb p "" || String.eqb p ".").

  (** [Path(s)]: empty and ["."] components are dropped *)
Definition Path (s : string) : t :=
    mk (parse_root s) (List.filter keep_part (PyStr.split "/" s)).

  (** [str(p)] *)
Definition str (p : t) : string :=
    match root p, parts p with
    | "", [] => "."
    | r, ps => r +:+ PyStr.join "/" ps
    end.

  (** [p.name] *)
Definition name (p : t) : string := List.last (parts p) "".

  (** The index of the dot that starts the suffix of a component. *)
Definition suffix_index (n : string) : option nat :=
    match PyStr.rfind "." n with
    | Some i =>
        if (Nat.ltb 0 i && Nat.ltb i (String.length n - 1))%bool
        then Some i else None
    | None => None
    end.

  (** [p.suffix] *)
Definition suffix (p : t) : string :=
    let n := name p in
    match suffix_index n with
    | Some i => substring i (String.length n - i) n
    | None => ""
    end.

  (** [p.stem] *)
Definition stem (p : t) : string :=
    let n := name p in
    match suffix_index n with
    | Some i => substring 0 i n
    | None => n
    end.

  (** [p.parent] *)
Definition parent (p : t) : t :=
    mk (root p) (List.removelast (parts p)).

  (** [p / s] *)
Definition joinpath (p : t) (s : string) : t :=
    let q := Path s in
    if String.eqb (root q) "" then mk (root p) (parts p ++ parts q) else q.

End PyPath.

(* ===================================================================== *)
(** ** Exceptions and effects *)
(* ===================================================================== *)

(** The outcome of a Python expression: an exception (kept as its message,
    [str(e)]) or a value. *)
Inductive result (A : Type) : Type :=
| Raise (msg : string)
| Ok (a : A).
Arguments Raise {A} msg.
Arguments Ok {A} a.

(** A decoded bitmap; only its [size] matters here. *)
Record Image := mkImage { img_width : N; img_height : N; img_tag : nat }.

Definition size (i : Image) : Z * Z := (Z.of_N (img_width i), Z.of_N (img_height i)).

(** One uploaded file of a multipart request (werkzeug's [FileStorage]). *)
Record Upload := mkUpload { filename : string; payload : nat }.

(** The calls that act on the world. *)
Inductive event : Type :=
| EvMkdir (dir : string)
| EvRender (pdf : string) (dpi : Z)
| EvSaveJpeg (img : Image) (path : string) (quality : Z)
| EvUploadSave (u : Upload) (path : string)
| EvCleanup.

(** A computation: the trace it leaves and how it ends. *)
Definition M (A : Type) : Type := list event * result A.

Definition ret {A} (a : A) : M A := ([], Ok a).
Definition raise {A} (msg : string) : M A := ([], Raise msg).
Definition emit (e : event) : M unit := ([e], Ok tt).
Definition lift {A} (r : result A) : M A := ([], r).

Definition bind {A B} (m : M A) (f : A -> M B) : M B :=
  match m with
  | (tr, Raise msg) => (tr, Raise msg)
  | (tr, Ok a) => let (tr', r) := f a in (tr ++ tr', r)
  end.

(** [try: m  except Exception as e: h(str(e))] *)
Definition try_except {A} (m : M A) (h : string -> A) : list event * A :=
  match m with
  | (tr, Ok a) => (tr, a)
  | (tr, Raise msg) => (tr, h msg)
  end.

Declare Scope py_scope.
Delimit Scope py_scope with py.
Notation "'let*' x ':=' m 'in' k" := (bind m (fun x => k))
  (at level 10, x pattern, m at level 100, k at level 200) : py_scope.
Open Scope py_scope.

(* ===================================================================== *)
(** ** Python floats and their conversions *)
(* ===================================================================== *)

Module PyFloat.

Definition prec : Z := 53.
Definition emax : Z := 1024.

Definition mul : spec_float -> spec_float -> spec_float := SFmul prec emax.
Definition sub : spec_float -> spec_float -> spec_float := SFsub prec emax.
Definition leb : spec_float -> spec_float -> bool := SFleb.
Definition ltb : spec_float -> spec_float -> bool := SFltb.

  (** [float(n)] for an [int]: the nearest double, [OverflowError] beyond. *)
Definition of_int (n : Z) : result spec_float :=
    match binary_normalize prec emax n 0 false with
    | S754_infinity _ => Raise "int too large to convert to float"
    | f => Ok f
    end.

  (** [n * x] with [n] an [int] and [x] a [float] *)
Definition int_mul (n : Z) (x : spec_float) : result spec_float :=
    match of_int n with
    | Raise msg => Raise msg
    | Ok f => Ok (mul f x)
    end.

  (** [int(x)]: truncation towards zero *)
Definition to_int (x : spec_float) : result Z :=
    match x with
    | S754_zero _ => Ok 0
    | S754_finite s m e => Ok (cond_Zopp s (Z.shiftl (Zpos m) e))
    | S754_infinity _ => Raise "cannot convert float infinity to integer"
    | S754_nan => Raise "cannot convert float NaN to integer"
    end.

  (** [int(n * x)] *)
Definition int_of_product (n : Z) (x : spec_float) : result Z :=
    match int_mul n x with
    | Raise msg => Raise msg
    | Ok p => to_int p
    end.

  (** No negative number: a zero, a positive number, an infinity or NaN. *)
Definition nonneg (x : spec_float) : Prop :=
    match x with
    | S754_finite true _ _ => False
    | _ => True
    end.

  (** The floor of the value of a double, as the specification words the
      rounding of a scaled dimension: the largest integer not above it.
      [Z.shiftl] by a negative amount is the division by a power of two
      that rounds down. *)
Definition floor (x : spec_float) : option Z :=
    match x with
    | S754_zero _ => Some 0
    | S754_finite s m e => Some (Z.shiftl (cond_Zopp s (Zpos m)) e)
    | _ => None
    end.

  (** [floor(n * x)], the product being the one of the doubles. *)
Definition floor_of_product (n : Z) (x : spec_float) : option Z :=
    match int_mul n x with
    | Raise _ => None
    | Ok p => floor p
    end.

  (** The doubles written [0.1], [0.6], [2.0], [0.29] in the sources. *)
Definition f0_1 : spec_float := S754_finite false 7205759403792794 (-56).
Definition f0_6 : spec_float := S754_finite false 5404319552844595 (-53).
Definition f2_0 : spec_float := S754_finite false 4503599627370496 (-51).
Definition f0_29 : spec_float := S754_finite false 5224175567749775 (-54).

End PyFloat.

(* ===================================================================== *)
(** ** The environment *)
(* ===================================================================== *)

(** What the program asks of the operating system and of its libraries.
    Paths are passed as [str(path)]. *)
Record Env := mkEnv {
  (** [Path.exists]; may raise, for instance [PermissionError] *)
  path_exists : string -> result bool;
  (** [Path.is_file], [Path.is_dir] *)
  is_file : string -> bool;
  is_dir : string -> bool;
  (** [[str(p) for p in Path(dir).rglob(pattern)]] *)
  rglob : string -> string -> list string;
  (** [glob.glob(pattern)] *)
  glob_glob : string -> list string;
  (** [Path.mkdir(parents=True, exist_ok=True)] *)
  mkdir : string -> result unit;
  (** pdf2image's [convert_from_path(path, dpi, first_page=1, last_page=1)] *)
  convert_from_path : string -> Z -> result (list Image);
  (** Pillow's [Image.resize(size, LANCZOS)] *)
  resize : Image -> Z * Z -> result Image;
  (** Pillow's [Image.save(path, 'JPEG', quality, optimize=True)] *)
  save_jpeg : Image -> string -> Z -> result unit;
  (** werkzeug's [secure_filename] and [FileStorage.save] *)
  secure_filename : string -> string;
  upload_save : Upload -> string -> result unit;
  (** [time.time()] when the batch is dispatched and when it has drained *)
  time_start : spec_float;
  time_end : spec_float;
  (** The order in which the pool completes its tasks: at each step the
      pick, modulo the number of pending futures, is the next to finish. *)
  completion_picks : list nat
}.

(** Pillow returns an image of the size it was asked for. *)
Definition resize_contract (env : Env) : Prop :=
  forall img sz img', resize env img sz = Ok img' -> size img' = sz.

(* ===================================================================== *)
(** ** pdf_to_jpg_converter.py *)
(* ===================================================================== *)

(** [(success, pdf_path, output_path or error_message)] *)
Definition outcome : Type := bool * string * string.

Definition succeeded (o : outcome) : bool := fst (fst o).

(** The body of the [try] block of [pdf_first_page_to_jpg]. *)
Definition pdf_first_page_to_jpg_body (env : Env) (pdf_path : string)
    (output_dir : option string) (dpi quality : Z) (scale_factor : spec_float)
    : M outcome :=
  let pdf_path := PyPath.Path pdf_path in
  let* found := lift (path_exists env (PyPath.str pdf_path)) in
  if negb found then
    ret (false, PyPath.str pdf_path, "File not found: " +:+ PyPath.str pdf_path)
  else if negb (String.eqb (PyStr.lower (PyPath.suffix pdf_path)) ".pdf") then
    ret (false, PyPath.str pdf_path, "Not a PDF file")
  else
    let* output_dir :=
      match output_dir with
      | None => ret (PyPath.parent pdf_path)
      | Some d =>
          let output_dir := PyPath.Path d in
          let* _ := emit (EvMkdir (PyPath.str output_dir)) in
          let* _ := lift (mkdir env (PyPath.str output_dir)) in
          ret output_dir
      end in
    let output_path := PyPath.joinpath output_dir (PyPath.stem pdf_path +:+ ".jpg") in
    let* _ := emit (EvRender (PyPath.str pdf_path) dpi) in
    let* pages := lift (convert_from_path env (PyPath.str pdf_path) dpi) in
    match pages with
    | [] => ret (false, PyPath.str pdf_path, "No pages found in PDF")
    | first_page :: _ =>
        let '(original_width, original_height) := size first_page in
        let* new_width := lift (PyFloat.int_of_product original_width scale_factor) in
        let* new_height := lift (PyFloat.int_of_product original_height scale_factor) in
        let* resized_image := lift (resize env first_page (new_width, new_height)) in
        let* _ := emit (EvSaveJpeg resized_image (PyPath.str output_path) quality) in
        let* _ := lift (save_jpeg env resized_image (PyPath.str output_path) quality) in
        ret (true, PyPath.str pdf_path, PyPath.str output_path)
    end.

(** [pdf_first_page_to_jpg]: the body under [except Exception as e], whose
    handler returns [False, str(pdf_path), str(e)]; [pdf_path] is by then
    the [Path] bound by the first statement of the body. *)
Definition pdf_first_page_to_jpg (env : Env) (pdf_path : string)
    (output_dir : option string) (dpi quality : Z) (scale_factor : spec_float)
    : list event * outcome :=
  try_except
    (pdf_first_page_to_jpg_body env pdf_path output_dir dpi quality scale_factor)
    (fun msg => (false, PyPath.str (PyPath.Path pdf_path), msg)).

(** Where [pdf_first_page_to_jpg] writes the JPEG of [pdf_path]. *)
Definition output_path_for (pdf_path : string) (output_dir : option string) : string :=
  let pdf_path := PyPath.Path pdf_path in
  let output_dir :=
    match output_dir with
    | None => PyPath.parent pdf_path
    | Some d => PyPath.Path d
    end in
  PyPath.str (PyPath.joinpath output_dir (PyPath.stem pdf_path +:+ ".jpg")).

(** The input passed validation and its output directory is there. *)
Definition ready (env : Env) (pdf_path : string) (output_dir : option string) : Prop :=
  path_exists env (PyPath.str (PyPath.Path pdf_path)) = Ok true /\
  PyStr.lower (PyPath.suffix (PyPath.Path pdf_path)) = ".pdf" /\
  match output_dir with
  | None => True
  | Some d => mkdir env (PyPath.str (PyPath.Path d)) = Ok tt
  end.

(** The steps of a conversion at which an exception can be thrown, each
    reached when the steps before it went through: probing the file,
    creating the output directory, rendering, scaling either dimension,
    resizing, and writing the JPEG. *)
Inductive step_raises (env : Env) (pdf_path : string) (output_dir : option string)
    (dpi quality : Z) (scale_factor : spec_float) (msg : string) : Prop :=
| raises_exists :
    path_exists env (PyPath.str (PyPath.Path pdf_path)) = Raise msg ->
    step_raises env pdf_path output_dir dpi quality scale_factor msg
| raises_mkdir d :
    path_exists env (PyPath.str (PyPath.Path pdf_path)) = Ok true ->
    PyStr.lower (PyPath.suffix (PyPath.Path pdf_path)) = ".pdf" ->
    output_dir = Some d ->
    mkdir env (PyPath.str (PyPath.Path d)) = Raise msg ->
    step_raises env pdf_path output_dir dpi quality scale_factor msg
| raises_render :
    ready env pdf_path output_dir ->
    convert_from_path env (PyPath.str (PyPath.Path pdf_path)) dpi = Raise msg ->
    step_raises env pdf_path output_dir dpi quality scale_factor msg
| raises_scale_width page rest :
    ready env pdf_path output_dir ->
    convert_from_path env (PyPath.str (PyPath.Path pdf_path)) dpi = Ok (page :: rest) ->
    PyFloat.int_of_product (fst (size page)) scale_factor = Raise msg ->
    step_raises env pdf_path output_dir dpi quality scale_factor msg
| raises_scale_height page rest new_width :
    ready env pdf_path output_dir ->
    convert_from_path env (PyPath.str (PyPath.Path pdf_path)) dpi = Ok (page :: rest) ->
    PyFloat.int_of_product (fst (size page)) scale_factor = Ok new_width ->
    PyFloat.int_of_product (snd (size page)) scale_factor = Raise msg ->
    step_raises env pdf_path output_dir dpi quality scale_factor msg
| raises_resize page rest new_width new_height :
    ready env pdf_path output_dir ->
    convert_from_path env (PyPath.str (PyPath.Path pdf_path)) dpi = Ok (page :: rest) ->
    PyFloat.int_of_product (fst (size page)) scale_factor = Ok new_width ->
    PyFloat.int_of_product (snd (size page)) scale_factor = Ok new_height ->
    resize env page (new_width, new_height) = Raise msg ->
    step_raises env pdf_path output_dir dpi quality scale_factor msg
| raises_save page rest new_width new_height resized :
    ready env pdf_path output_dir ->
    convert_from_path env (PyPath.str (PyPath.Path pdf_path)) dpi = Ok (page :: rest) ->
    PyFloat.int_of_product (fst (size page)) scale_factor = Ok new_width ->
    PyFloat.int_of_product (snd (size page)) scale_factor = Ok new_height ->
    resize env page (new_width, new_height) = Ok resized ->
    save_jpeg env resized (output_path_for pdf_path output_dir) quality = Raise msg ->
    step_raises env pdf_path output_dir dpi quality scale_factor msg.

(** Python's order on [str]: lexicographic on the character codes. *)
Definition str_le (s1 s2 : string) : Prop := String.leb s1 s2 = true.
Definition str_lt (s1 s2 : string) : Prop := String.ltb s1 s2 = true.

#[global] Instance str_le_dec (s1 s2 : string) : Decision (str_le s1 s2).
Proof. unfold str_le. apply _. Defined.

(** [sorted(list(set(l)))]: the set, its elements in whatever order the set
    yields them, then sorted. *)
Definition sorted_set (l : list string) : list string :=
  merge_sort str_le (elements (list_to_set l : gset string)).

(** What one turn of the loop of [find_pdf_files] adds to [pdf_files]. *)
Definition found_for (env : Env) (input_path : string) : list string :=
  let path := PyPath.Path input_path in
  if (is_file env (PyPath.str path)
      && String.eqb (PyStr.lower (PyPath.suffix path)) ".pdf")%bool then
    [PyPath.str path]
  else if is_dir env (PyPath.str path) then
    rglob env (PyPath.str path) "*.pdf" ++ rglob env (PyPath.str path) "*.PDF"
  else if (PyStr.contains "*" (PyPath.str path)
           || PyStr.contains "?" (PyPath.str path))%bool then
    glob_glob env (PyPath.str path)
  else [].

Definition find_pdf_files (env : Env) (input_paths : list string) : list string :=
  let pdf_files :=
    fold_left (fun pdf_files input_path => pdf_files ++ found_for env input_path)
              input_paths [] in
  sorted_set pdf_files.

(** Values stored in the summary dictionary. *)
Inductive value : Type :=
| VInt (n : Z)
| VFloat (x : spec_float)
| VResults (l : list outcome).

(** [as_completed]: the pending futures leave in the order of the picks. *)
Fixpoint drain {A} (picks : list nat) (fuel : nat) (pending : list A) : list A :=
  match fuel with
  | O => []
  | S fuel' =>
      let k := (hd 0%nat picks mod length pending)%nat in
      match pending !! k with
      | Some finished => finished :: drain (tl picks) fuel' (delete k pending)
      | None => []
      end
  end.

Definition as_completed {A} (env : Env) (futures : list A) : list A :=
  drain (completion_picks env) (length futures) futures.

(** The loop over the completed futures: [(results, successful, failed)]. *)
Definition collect (completed : list outcome) : list outcome * Z * Z :=
  fold_left
    (fun '(results, successful, failed) (o : outcome) =>
       let '(success, pdf_path, result_path_or_error) := o in
       let results := results ++ [(success, pdf_path, result_path_or_error)] in
       if success then (results, successful + 1, failed)
       else (results, successful, failed + 1))
    completed ([], 0, 0).

(** [process_pdfs_bulk].  The trace of a batch is the traces of its tasks,
    task after task in completion order. *)
Definition process_pdfs_bulk (env : Env) (input_paths : list string)
    (output_dir : option string) (dpi quality max_workers : Z)
    (scale_factor : spec_float) : M (gmap string value) :=
  let pdf_files := find_pdf_files env input_paths in
  match pdf_files with
  | [] =>
      ret ({[ "total" := VInt 0; "successful" := VInt 0;
              "failed" := VInt 0; "results" := VResults [] ]})
  | _ =>
      if max_workers <=? 0 then raise "max_workers must be greater than 0"
      else
        let futures :=
          map (fun pdf_file =>
                 pdf_first_page_to_jpg env pdf_file output_dir dpi quality scale_factor)
              pdf_files in
        let completed := as_completed env futures in
        let '(results, successful, failed) := collect (map snd completed) in
        let elapsed_time := PyFloat.sub (time_end env) (time_start env) in
        (concat (map fst completed),
         Ok ({[ "total" := VInt (Z.of_nat (length pdf_files));
                "successful" := VInt successful;
                "failed" := VInt failed;
                "results" := VResults results;
                "elapsed_time" := VFloat elapsed_time ]}))
  end.

(** The resolved files whose conversion fails. *)
Definition failing_files (env : Env) (input_paths : list string)
    (output_dir : option string) (dpi quality : Z) (scale_factor : spec_float)
    : list string :=
  filter (fun pdf_file =>
            succeeded (snd (pdf_first_page_to_jpg env pdf_file output_dir
                              dpi quality scale_factor)) = false)
         (find_pdf_files env input_paths).



(** The local variables that the argument loop of [main] sets. *)
Record cli_args := mkArgs {
  arg_input_paths : list string;
  arg_output_dir : option string;
  arg_dpi : Z;
  arg_quality : Z;
  arg_max_workers : Z
}.

Definition initial_args : cli_args := mkArgs [] None 200 95 4.


(** The numeric tail: [dpi], then [quality] and [max_workers] while the
    next argument is numeric too; then [break]. *)
Definition parse_numbers (arg : string) (rest : list string) (a : cli_args) : cli_args :=
  let a := mkArgs (arg_input_paths a) (arg_output_dir a)
                  (PyStr.int_of_digits arg) (arg_quality a) (arg_max_workers a) in
  match rest with
  | q :: rest' =>
      if PyStr.isdigit q then
        let a := mkArgs (arg_input_paths a) (arg_output_dir a)
                        (arg_dpi a) (PyStr.int_of_digits q) (arg_max_workers a) in
        match rest' with
        | m :: _ =>
            if PyStr.isdigit m then
              mkArgs (arg_input_paths a) (arg_output_dir a)
                     (arg_dpi a) (arg_quality a) (PyStr.int_of_digits m)
            else a
        | [] => a
        end
      else a
  | [] => a
  end.

(** The [while i < len(sys.argv)] loop, on the arguments still to read. *)
Fixpoint parse_args (env : Env) (args : list string) (a : cli_args) : cli_args :=
  match args with
  | [] => a
  | arg :: rest =>
      if PyStr.isdigit arg then parse_numbers arg rest a
      else if ((is_dir env (PyPath.str (PyPath.Path arg))
                || PyStr.endswith arg "/" || PyStr.endswith arg "\")
               && String.eqb (PyPath.suffix (PyPath.Path arg)) "")%bool then
        parse_args env rest
          (mkArgs (arg_input_paths a) (Some arg)
                  (arg_dpi a) (arg_quality a) (arg_max_workers a))
      else
        parse_args env rest
          (mkArgs (arg_input_paths a ++ [arg]) (arg_output_dir a)
                  (arg_dpi a) (arg_quality a) (arg_max_workers a))
  end.







(* ===================================================================== *)
(** ** web_app.py *)
(* ===================================================================== *)

Definition UPLOAD_FOLDER : string := "uploads".
Definition OUTPUT_FOLDER : string := "outputs".
Definition ALLOWED_EXTENSIONS : list string := ["pdf"].

Definition allowed_file (filename : string) : bool :=
  (PyStr.contains "." filename
   && existsb (String.eqb (PyStr.lower (PyStr.after_last "." filename)))
              ALLOWED_EXTENSIONS)%bool.

(** [os.path.join(a, b)] on POSIX *)
Definition os_path_join (a b : string) : string :=
  if PyStr.startswith b "/" then b
  else if (String.eqb a "" || PyStr.endswith a "/")%bool then a +:+ b
  else a +:+ "/" +:+ b.

#[warnings="-register-all"]
Inductive json : Type :=
| JString (s : string)
| JNumber (n : Z)
| JBool (b : bool)
| JArray (items : list json)
| JObject (fields : list (string * json)).

Fixpoint assoc (key : string) (fields : list (string * json)) : option json :=
  match fields with
  | [] => None
  | (k, v) :: rest => if String.eqb key k then Some v else assoc key rest
  end.

Definition json_get (key : string) (j : json) : option json :=
  match j with
  | JObject fields => assoc key fields
  | _ => None
  end.

(** A JSON body and its HTTP status. *)
Definition response : Type := json * Z.

Definition error_response (msg : string) (status : Z) : response :=
  (JObject [("error", JString msg)], status).

(** A multipart request as the handler reads it.  [req_files] is
    [request.files.getlist('files')], [None] when the key is absent; the
    three form fields are what [int(...)] and [float(...)] make of them,
    possibly a [ValueError]. *)
Record Request := mkRequest {
  req_files : option (list Upload);
  form_dpi : result Z;
  form_quality : result Z;
  form_scale_factor : result spec_float
}.

(** The truth value of a [FileStorage]: that of its file name. *)
Definition truthy (file : Upload) : bool := negb (String.eqb (filename file) "").

(** The loop that saves the uploads; the result is [uploaded_files]. *)
Fixpoint save_uploads (env : Env) (files : list Upload) : M (list string) :=
  match files with
  | [] => ret []
  | file :: rest =>
      if (truthy file && allowed_file (filename file))%bool then
        let filename := secure_filename env (filename file) in
        let file_path := os_path_join UPLOAD_FOLDER filename in
        let* _ := emit (EvUploadSave file file_path) in
        let* _ := lift (upload_save env file file_path) in
        let* uploaded_files := save_uploads env rest in
        ret (file_path :: uploaded_files)
      else save_uploads env rest
  end.

(** The loop that converts them: [(results, converted_files)]. *)
Fixpoint convert_uploads (env : Env) (uploaded_files : list string)
    (dpi quality : Z) (scale_factor : spec_float)
    : list event * (list json * list string) :=
  match uploaded_files with
  | [] => ([], ([], []))
  | pdf_path :: rest =>
      let '(tr, (success, original_path, result)) :=
        pdf_first_page_to_jpg env pdf_path (Some OUTPUT_FOLDER) dpi quality scale_factor in
      let filename := PyPath.name (PyPath.Path original_path) in
      let '(tr', (results, converted_files)) :=
        convert_uploads env rest dpi quality scale_factor in
      if success then
        (tr ++ tr',
         (JObject [("filename", JString filename); ("status", JString "success");
                   ("output", JString (PyPath.name (PyPath.Path result)))] :: results,
          result :: converted_files))
      else
        (tr ++ tr',
         (JObject [("filename", JString filename); ("status", JString "error");
                   ("error", JString result)] :: results,
          converted_files))
  end.

(** The body of the [try] block of [upload_files]. *)
Definition upload_files_body (env : Env) (request : Request) : M response :=
  let* _ := emit EvCleanup in
  match req_files request with
  | None => ret (error_response "No files uploaded" 400)
  | Some files =>
      if (bool_decide (files = [])
          || forallb (fun file => String.eqb (filename file) "") files)%bool then
        ret (error_response "No files selected" 400)
      else
        let* dpi := lift (form_dpi request) in
        let* quality := lift (form_quality request) in
        let* scale_factor := lift (form_scale_factor request) in
        if negb ((72 <=? dpi) && (dpi <=? 600)) then
          ret (error_response "DPI must be between 72 and 600" 400)
        else if negb ((1 <=? quality) && (quality <=? 100)) then
          ret (error_response "Quality must be between 1 and 100" 400)
        else if negb (PyFloat.leb PyFloat.f0_1 scale_factor
                      && PyFloat.leb scale_factor PyFloat.f2_0) then
          ret (error_response "Scale factor must be between 0.1 and 2.0" 400)
        else
          let* uploaded_files := save_uploads env files in
          match uploaded_files with
          | [] => ret (error_response "No valid PDF files uploaded" 400)
          | _ =>
              let '(tr, (results, converted_files)) :=
                convert_uploads env uploaded_files dpi quality scale_factor in
              (tr,
               Ok (JObject [("success", JBool true);
                            ("results", JArray results);
                            ("converted_count", JNumber (Z.of_nat (length converted_files)));
                            ("total_count", JNumber (Z.of_nat (length uploaded_files)))],
                   200))
          end
  end.

(** [upload_files]: any exception becomes a 500 with its message. *)
Definition upload_files (env : Env) (request : Request) : list event * response :=
  try_except (upload_files_body env request)
             (fun msg => error_response msg 500).

(** The five ways a request ends: turned down before the files are looked
    at; a form field that is no number; a save that fails; no file kept;
    the files converted. *)
Inductive upload_run (env : Env) (request : Request)
    : list event -> response -> Prop :=
| run_turned_down body :
    upload_run env request [EvCleanup] (body, 400)
| run_bad_field msg :
    form_dpi request = Raise msg \/ form_quality request = Raise msg \/
    form_scale_factor request = Raise msg ->
    upload_run env request [EvCleanup] (error_response msg 500)
| run_save_failed files trs msg :
    req_files request = Some files ->
    save_uploads env files = (trs, Raise msg) ->
    upload_run env request (EvCleanup :: trs) (error_response msg 500)
| run_none_kept files trs :
    req_files request = Some files ->
    save_uploads env files = (trs, Ok []) ->
    upload_run env request (EvCleanup :: trs)
      (error_response "No valid PDF files uploaded" 400)
| run_converted files trs uploaded_files dpi quality scale_factor :
    req_files request = Some files ->
    save_uploads env files = (trs, Ok uploaded_files) ->
    uploaded_files <> [] ->
    upload_run env request
      (EvCleanup :: trs
       ++ fst (convert_uploads env uploaded_files dpi quality scale_factor))
      (JObject
         [("success", JBool true);
          ("results",
           JArray (fst (snd (convert_uploads env uploaded_files dpi quality
                               scale_factor))));
          ("converted_count",
           JNumber (Z.of_nat (length (snd (snd (convert_uploads env uploaded_files
                                                  dpi quality scale_factor))))));
          ("total_count", JNumber (Z.of_nat (length uploaded_files)))],
       200).


Definition accepted (files : list Upload) : list Upload :=
  filter (fun file => allowed_file (filename file) = true) files.

Definition upload_path (env : Env) (file : Upload) : string :=
  os_path_join UPLOAD_FOLDER (secure_filename env (filename file)).

(** The events a conversion of [pdf_path] may leave: it creates a
    directory, renders [pdf_path] itself, writes a JPEG. *)
Definition conversion_event (pdf_path : string) (e : event) : Prop :=
  match e with
  | EvMkdir _ => True
  | EvRender p _ => p = PyPath.str (PyPath.Path pdf_path)
  | EvSaveJpeg _ _ _ => True
  | EvUploadSave _ _ => False
  | EvCleanup => False
  end.

(** The specification's reading of "a PDF file path": the suffix is
    [.pdf] or [.PDF]. *)
Definition has_pdf_suffix (p : string) : Prop :=
  PyPath.suffix (PyPath.Path p) = ".pdf" \/ PyPath.suffix (PyPath.Path p) = ".PDF".

(** The three ways an input contributes a path to [find_pdf_files]. *)
Inductive contributed (env : Env) (input_path p : string) : Prop :=
| from_file :
    is_file env p = true ->
    p = PyPath.str (PyPath.Path input_path) ->
    PyStr.lower (PyPath.suffix (PyPath.Path input_path)) = ".pdf" ->
    contributed env input_path p
| from_directory :
    is_dir env (PyPath.str (PyPath.Path input_path)) = true ->
    p ∈ rglob env (PyPath.str (PyPath.Path input_path)) "*.pdf"
    \/ p ∈ rglob env (PyPath.str (PyPath.Path input_path)) "*.PDF" ->
    contributed env input_path p
| from_wildcard :
    (PyStr.contains "*" (PyPath.str (PyPath.Path input_path))
     || PyStr.contains "?" (PyPath.str (PyPath.Path input_path)))%bool = true ->
    p ∈ glob_glob env (PyPath.str (PyPath.Path input_path)) ->
    contributed env input_path p.

(** The events that preparing the output directory leaves. *)
Definition dir_events (output_dir : option string) : list event :=
  match output_dir with
  | Some d => [EvMkdir (PyPath.str (PyPath.Path d))]
  | None => []
  end.

(** Every step of a conversion goes through: the page is rendered, both
    dimensions scale, Pillow resizes and writes. *)
Definition converts (env : Env) (pdf_path : string) (output_dir : option string)
    (dpi quality : Z) (scale_factor : spec_float) (jpeg : Image) : Prop :=
  ready env pdf_path output_dir /\
  exists page rest new_width new_height,
    convert_from_path env (PyPath.str (PyPath.Path pdf_path)) dpi = Ok (page :: rest) /\
    PyFloat.int_of_product (fst (size page)) scale_factor = Ok new_width /\
    PyFloat.int_of_product (snd (size page)) scale_factor = Ok new_height /\
    resize env page (new_width, new_height) = Ok jpeg /\
    save_jpeg env jpeg (output_path_for pdf_path output_dir) quality = Ok tt.

(** The ways a conversion ends, with the trace of each. *)
Inductive conversion (env : Env) (pdf_path : string) (output_dir : option string)
    (dpi quality : Z) (scale_factor : spec_float)
    : list event -> outcome -> Prop :=
| conv_not_found :
    path_exists env (PyPath.str (PyPath.Path pdf_path)) = Ok false ->
    conversion env pdf_path output_dir dpi quality scale_factor []
      (false, PyPath.str (PyPath.Path pdf_path),
       "File not found: " +:+ PyPath.str (PyPath.Path pdf_path))
| conv_not_a_pdf :
    path_exists env (PyPath.str (PyPath.Path pdf_path)) = Ok true ->
    PyStr.lower (PyPath.suffix (PyPath.Path pdf_path)) <> ".pdf" ->
    conversion env pdf_path output_dir dpi quality scale_factor []
      (false, PyPath.str (PyPath.Path pdf_path), "Not a PDF file")
| conv_no_pages :
    ready env pdf_path output_dir ->
    convert_from_path env (PyPath.str (PyPath.Path pdf_path)) dpi = Ok [] ->
    conversion env pdf_path output_dir dpi quality scale_factor
      (dir_events output_dir ++ [EvRender (PyPath.str (PyPath.Path pdf_path)) dpi])
      (false, PyPath.str (PyPath.Path pdf_path), "No pages found in PDF")
| conv_raised tr msg :
    step_raises env pdf_path output_dir dpi quality scale_factor msg ->
    conversion env pdf_path output_dir dpi quality scale_factor tr
      (false, PyPath.str (PyPath.Path pdf_path), msg)
| conv_done jpeg :
    converts env pdf_path output_dir dpi quality scale_factor jpeg ->
    conversion env pdf_path output_dir dpi quality scale_factor
      (dir_events output_dir
       ++ [EvRender (PyPath.str (PyPath.Path pdf_path)) dpi;
           EvSaveJpeg jpeg (output_path_for pdf_path output_dir) quality])
      (true, PyPath.str (PyPath.Path pdf_path), output_path_for pdf_path output_dir).


(** What a conversion of [pdf_path] with these parameters may do: create
    the output directory it was given, render [pdf_path] at [dpi], write a
    JPEG at its output path with [quality]. *)
Definition own_event (pdf_path : string) (output_dir : option string)
    (dpi quality : Z) (e : event) : Prop :=
  match e with
  | EvMkdir dir => exists d, output_dir = Some d /\ dir = PyPath.str (PyPath.Path d)
  | EvRender p d => p = PyPath.str (PyPath.Path pdf_path) /\ d = dpi
  | EvSaveJpeg _ out q => out = output_path_for pdf_path output_dir /\ q = quality
  | EvUploadSave _ _ => False
  | EvCleanup => False
  end.

(** The test of [main] for an output directory: an existing directory, or
    a trailing slash or backslash, and no suffix. *)
Definition dir_like (env : Env) (arg : string) : bool :=
  ((is_dir env (PyPath.str (PyPath.Path arg))
    || PyStr.endswith arg "/" || PyStr.endswith arg "\")
   && String.eqb (PyPath.suffix (PyPath.Path arg)) "")%bool.


Fixpoint from_numbers (args : list string) : list string :=
  match args with
  | [] => []
  | arg :: rest => if PyStr.isdigit arg then arg :: rest else from_numbers rest
  end.

(** The event of storing an upload, and whether storing it goes through. *)
Definition save_event (env : Env) (file : Upload) : event :=
  EvUploadSave file (upload_path env file).

Definition saves (env : Env) (file : Upload) : Prop :=
  upload_save env file (upload_path env file) = Ok tt.

(** An entry of [results] whose status is [success]. *)
Definition is_success_entry (r : json) : bool :=
  match json_get "status" r with
  | Some (JString s) => String.eqb s "success"
  | _ => false
  end.

(** An event of the handler before any conversion. *)
Definition upload_event (e : event) : Prop :=
  match e with
  | EvCleanup => True
  | EvUploadSave _ _ => True
  | _ => False
  end.

(* ===================================================================== *)
(** ** A small environment to run the program in *)
(* ===================================================================== *)

Module Demo.

  (** The working directory holds [a.pdf] (one page of 1000 x 1400 pixels
      at any resolution), [b.pdf] (the rasteriser rejects it), [Scan.Pdf],
      [note.txt], the directory [in] with [in/a.pdf] and [in/b.PDF], and
      [uploads/a.pdf], a copy of [a.pdf]. *)
Definition files : list string :=
    ["a.pdf"; "b.pdf"; "Scan.Pdf"; "note.txt"; "in/a.pdf"; "in/b.PDF";
     "uploads/a.pdf"].

Definition mem (s : string) (l : list string) : bool := existsb (String.eqb s) l.

Definition page : Image := mkImage 1000 1400 0.

Definition env : Env := {|
    path_exists := fun p => Ok (mem p files || String.eqb p "in")%bool;
    is_file := fun p => mem p files;
    is_dir := fun p => String.eqb p "in";
    rglob := fun d pat =>
      if String.eqb d "in" then
        if String.eqb pat "*.pdf" then ["in/a.pdf"]
        else if String.eqb pat "*.PDF" then ["in/b.PDF"] else []
      else [];
    glob_glob := fun pat =>
      if String.eqb pat "*.txt" then ["note.txt"]
      else if String.eqb pat "in/*" then ["in/a.pdf"; "in/b.PDF"] else [];
    mkdir := fun _ => Ok tt;
    convert_from_path := fun p _ =>
      if String.eqb p "b.pdf" then Raise "Unable to get page count."
      else Ok [page];
    resize := fun img sz =>
      if ((fst sz <? 1) || (snd sz <? 1))%bool
      then Raise "height and width must be > 0"
      else Ok (mkImage (Z.to_N (fst sz)) (Z.to_N (snd sz)) (img_tag img));
    save_jpeg := fun _ _ _ => Ok tt;
    secure_filename := fun s => s;
    upload_save := fun _ _ => Ok tt;
    time_start := S754_finite false 4503599627370496 (-42);
    time_end := S754_finite false 4503599627370496 (-41);
    completion_picks := [1%nat; 0%nat]
  |}.

End Demo.

(** The same environment with a scratch area that refuses [b.pdf]. *)
Definition demo_full_disk : Env := {|
  path_exists := path_exists Demo.env;
  is_file := is_file Demo.env;
  is_dir := is_dir Demo.env;
  rglob := rglob Demo.env;
  glob_glob := glob_glob Demo.env;
  mkdir := mkdir Demo.env;
  convert_from_path := convert_from_path Demo.env;
  resize := resize Demo.env;
  save_jpeg := save_jpeg Demo.env;
  secure_filename := secure_filename Demo.env;
  upload_save := fun file _ =>
    if String.eqb (filename file) "b.pdf"
    then Raise "[Errno 28] No space left on device"
    else Ok tt;
  time_start := time_start Demo.env;
  time_end := time_end Demo.env;
  completion_picks := completion_picks Demo.env
|}.

(* ===================================================================== *)
(** ** The order on paths *)
(* ===================================================================== *)

Section StringOrder.

Lemma ascii_compare_lt_trans (a b c : ascii) :
    Ascii.compare a b = Lt -> Ascii.compare b c = Lt -> Ascii.compare a c = Lt.
  Proof.
    unfold Ascii.compare. rewrite !N.compare_lt_iff. lia.
  Qed.

Lemma ascii_compare_refl (a : ascii) : Ascii.compare a a = Eq.
  Proof. unfold Ascii.compare. apply N.compare_refl. Qed.

Lemma string_compare_refl (s : string) : String.compare s s = Eq.
  Proof.
    induction s as [|c s IH]; simpl; [reflexivity|].
    now rewrite ascii_compare_refl.
  Qed.

Lemma string_compare_lt_trans (s1 s2 s3 : string) :
    String.compare s1 s2 = Lt -> String.compare s2 s3 = Lt ->
    String.compare s1 s3 = Lt.
  Proof.
    revert s2 s3.
    induction s1 as [|c1 s1 IH]; intros [|c2 s2] [|c3 s3]; simpl;
      try reflexivity; try discriminate.
    destruct (Ascii.compare c1 c2) eqn:H12; try discriminate;
      destruct (Ascii.compare c2 c3) eqn:H23; try discriminate; intros Ha Hb.
    - apply Ascii.compare_eq_iff in H12, H23. subst.
      rewrite ascii_compare_refl. eauto.
    - apply Ascii.compare_eq_iff in H12. subst. now rewrite H23.
    - apply Ascii.compare_eq_iff in H23. subst. now rewrite H12.
    - now rewrite (ascii_compare_lt_trans _ _ _ H12 H23).
  Qed.

Lemma str_le_lt_or_eq (s1 s2 : string) : str_le s1 s2 <-> str_lt s1 s2 \/ s1 = s2.
  Proof.
    unfold str_le, str_lt, String.leb, String.ltb. split.
    - destruct (String.compare s1 s2) eqn:H; try discriminate; intros _.
      + right. now apply String.compare_eq_iff.
      + now left.
    - intros [H | ->].
      + destruct (String.compare s1 s2); try discriminate; reflexivity.
      + now rewrite string_compare_refl.
  Qed.

Lemma str_lt_irrefl (s : string) : ~ str_lt s s.
  Proof. unfold str_lt, String.ltb. now rewrite string_compare_refl. Qed.

#[global] Instance str_lt_trans : Transitive str_lt.
  Proof.
    intros s1 s2 s3. unfold str_lt, String.ltb.
    destruct (String.compare s1 s2) eqn:H12; try discriminate.
    destruct (String.compare s2 s3) eqn:H23; try discriminate.
    now rewrite (string_compare_lt_trans _ _ _ H12 H23).
  Qed.

#[global] Instance str_le_trans : Transitive str_le.
  Proof.
    intros s1 s2 s3. rewrite !str_le_lt_or_eq.
    intros [H12 | ->] [H23 | ->]; auto.
    left. now transitivity s2.
  Qed.

#[global] Instance str_le_total : Total str_le.
  Proof. intros s1 s2. apply String.leb_total. Qed.

#[global] Instance str_le_antisym : AntiSymm (=) str_le.
  Proof. intros s1 s2. apply String.leb_antisym. Qed.

End StringOrder.

(** A sorted list without repetition is strictly increasing. *)
Lemma sorted_nodup_strict (l : list string) :
  StronglySorted str_le l -> NoDup l -> StronglySorted str_lt l.
Proof.
  induction 1 as [|x l Hs IH Hx]; intros Hnd; constructor.
  - apply IH. now apply NoDup_cons_1_2 in Hnd.
  - apply NoDup_cons in Hnd as [Hnotin _].
    rewrite Forall_forall in Hx |- *. intros y Hy.
    destruct (proj1 (str_le_lt_or_eq x y) (Hx y Hy)) as [Hlt | ->]; [exact Hlt|].
    contradiction.
Qed.

Lemma sorted_set_perm (l : list string) :
  sorted_set l ≡ₚ elements (list_to_set l : gset string).
Proof. unfold sorted_set. apply merge_sort_Permutation. Qed.

Lemma sorted_set_elem_of (l : list string) (p : string) :
  p ∈ sorted_set l <-> p ∈ l.
Proof.
  rewrite (sorted_set_perm l), elem_of_elements, elem_of_list_to_set. reflexivity.
Qed.

Lemma sorted_set_NoDup (l : list string) : NoDup (sorted_set l).
Proof. rewrite (sorted_set_perm l). apply NoDup_elements. Qed.

Lemma sorted_set_sorted (l : list string) : StronglySorted str_lt (sorted_set l).
Proof.
  apply sorted_nodup_strict; [|apply sorted_set_NoDup].
  unfold sorted_set. apply StronglySorted_merge_sort; apply _.
Qed.

(** The loop of [find_pdf_files] gathers what each input adds, in order. *)
Lemma find_loop_concat (env : Env) (inputs acc : list string) :
  fold_left (fun pdf_files input_path => pdf_files ++ found_for env input_path)
            inputs acc
  = acc ++ concat (map (found_for env) inputs).
Proof.
  revert acc. induction inputs as [|i inputs IH]; intros acc; simpl.
  - now rewrite app_nil_r.
  - rewrite IH. now rewrite <- app_assoc.
Qed.

Lemma find_pdf_files_elem_of (env : Env) (inputs : list string) (p : string) :
  p ∈ find_pdf_files env inputs <->
  exists i, i ∈ inputs /\ p ∈ found_for env i.
Proof.
  unfold find_pdf_files. rewrite sorted_set_elem_of, find_loop_concat. simpl.
  rewrite list_elem_of_In, in_concat. split.
  - intros (l & Hl & Hp). apply in_map_iff in Hl as (i & <- & Hi).
    exists i. now rewrite !list_elem_of_In.
  - intros (i & Hi & Hp). exists (found_for env i).
    rewrite list_elem_of_In in Hi, Hp. split; [now apply in_map|exact Hp].
Qed.

Lemma filter_eq_absent (l : list string) (p : string) :
  p ∉ l -> filter (fun q => q = p) l = [].
Proof.
  induction l as [|x l IH]; intros Hp; [reflexivity|].
  apply not_elem_of_cons in Hp as [Hne Hp].
  rewrite filter_cons_False by congruence. now apply IH.
Qed.

Lemma NoDup_occurs_once (l : list string) (p : string) :
  NoDup l -> p ∈ l -> length (filter (fun q => q = p) l) = 1%nat.
Proof.
  induction 1 as [|x l Hx Hnd IH]; intros Hp.
  - inversion Hp.
  - destruct (decide (x = p)) as [->|Hne].
    + rewrite filter_cons_True by reflexivity.
      now rewrite filter_eq_absent.
    + rewrite filter_cons_False by exact Hne.
      apply elem_of_cons in Hp as [->|Hp]; [contradiction|]. now apply IH.
Qed.

(* ===================================================================== *)
(** ** Input resolver *)
(* ===================================================================== *)

(** C4.  The list returned by [find_pdf_files] has no duplicates and is
    sorted in the lexicographic order of its paths (even strictly
    increasing); a path that two inputs contribute, such as an explicit file
    and the directory that holds it, occurs in it exactly once. *)
Theorem find_pdf_files_sorted_unique (env : Env) (inputs : list string) :
  NoDup (find_pdf_files env inputs) /\
  StronglySorted str_le (find_pdf_files env inputs) /\
  StronglySorted str_lt (find_pdf_files env inputs) /\
  (forall i1 i2 p,
      i1 ∈ inputs -> i2 ∈ inputs ->
      p ∈ found_for env i1 -> p ∈ found_for env i2 ->
      length (filter (fun q => q = p) (find_pdf_files env inputs)) = 1%nat).
Proof.
  assert (Hnd : NoDup (find_pdf_files env inputs)) by apply sorted_set_NoDup.
  repeat split.
  - exact Hnd.
  - unfold find_pdf_files, sorted_set. apply StronglySorted_merge_sort; apply _.
  - apply sorted_set_sorted.
  - intros i1 i2 p Hi1 _ Hp1 _. apply NoDup_occurs_once; [exact Hnd|].
    apply find_pdf_files_elem_of. eauto.
Qed.

Lemma find_pdf_files_sorted_unique_witness :
  find_pdf_files Demo.env ["in"; "in/a.pdf"] = ["in/a.pdf"; "in/b.PDF"] /\
  length (filter (fun q => q = "in/a.pdf")
                 (find_pdf_files Demo.env ["in"; "in/a.pdf"])) = 1%nat.
Proof.
  split; [vm_compute; reflexivity|].
  destruct (find_pdf_files_sorted_unique Demo.env ["in"; "in/a.pdf"])
    as (_ & _ & _ & Honce).
  apply (Honce "in" "in/a.pdf" "in/a.pdf").
  - apply list_elem_of_here.
  - apply list_elem_of_further, list_elem_of_here.
  - vm_compute. apply list_elem_of_here.
  - vm_compute. apply list_elem_of_here.
Defined.

Lemma found_for_contributed (env : Env) (i p : string) :
  p ∈ found_for env i -> contributed env i p.
Proof.
  unfold found_for.
  destruct (is_file env (PyPath.str (PyPath.Path i))) eqn:Hfile; simpl.
  - destruct (String.eqb_spec (PyStr.lower (PyPath.suffix (PyPath.Path i))) ".pdf")
      as [Hsfx | Hsfx].
    + intros Hp. apply list_elem_of_singleton in Hp. subst p.
      now apply from_file.
    + destruct (is_dir env _) eqn:Hdir.
      * intros Hp. apply elem_of_app in Hp. now apply from_directory.
      * destruct (_ || _)%bool eqn:Hwild; intros Hp.
        -- now apply from_wildcard.
        -- inversion Hp.
  - destruct (is_dir env _) eqn:Hdir.
    + intros Hp. apply elem_of_app in Hp. now apply from_directory.
    + destruct (_ || _)%bool eqn:Hwild; intros Hp.
      * now apply from_wildcard.
      * inversion Hp.
Qed.

(** C5, as amended.  Every path returned by [find_pdf_files] was
    contributed by one of the inputs in one of three ways: as an existing
    file whose suffix is [.pdf] in any letter case; as a match of [*.pdf] or
    of [*.PDF] below an existing directory; or as a match of a wildcard
    input, about whose suffix nothing is said. *)
Theorem find_pdf_files_provenance (env : Env) (inputs : list string) (p : string) :
  p ∈ find_pdf_files env inputs ->
  exists i, i ∈ inputs /\ contributed env i p.
Proof.
  intros Hp. apply find_pdf_files_elem_of in Hp as (i & Hi & Hp).
  exists i. split; [exact Hi|]. now apply found_for_contributed.
Qed.

Lemma find_pdf_files_provenance_witness :
  exists i, i ∈ ["in"; "Scan.Pdf"] /\ contributed Demo.env i "Scan.Pdf".
Proof.
  apply (find_pdf_files_provenance Demo.env ["in"; "Scan.Pdf"] "Scan.Pdf").
  vm_compute. apply list_elem_of_here.
Defined.

(** C5 as stated fails: an existing file named [Scan.Pdf] is returned,
    and its suffix is neither [.pdf] nor [.PDF]. *)
Lemma find_pdf_files_mixed_case_suffix :
  find_pdf_files Demo.env ["Scan.Pdf"] = ["Scan.Pdf"] /\
  ~ Forall has_pdf_suffix (find_pdf_files Demo.env ["Scan.Pdf"]).
Proof.
  assert (Hrun : find_pdf_files Demo.env ["Scan.Pdf"] = ["Scan.Pdf"])
    by (vm_compute; reflexivity).
  split; [exact Hrun|]. rewrite Hrun. intros H.
  apply Forall_cons_1 in H as [[H | H] _]; vm_compute in H; discriminate H.
Qed.

(** What a wildcard input matches is returned as it is, whatever its
    suffix. *)
Remark find_pdf_files_wildcard_unfiltered :
  find_pdf_files Demo.env ["*.txt"] = ["note.txt"].
Proof. vm_compute. reflexivity. Qed.

(* ===================================================================== *)
(** ** Page converter *)
(* ===================================================================== *)

(** C6.  On a path that does not exist, [missing.pdf], with [dpi=200],
    [quality=95] and [scale_factor=0.6], the converter returns the triple
    [(False, "missing.pdf", "File not found: missing.pdf")], whatever the
    output directory, and does nothing else. *)
Theorem convert_missing_pdf (env : Env) (output_dir : option string) :
  path_exists env "missing.pdf" = Ok false ->
  pdf_first_page_to_jpg env "missing.pdf" output_dir 200 95 PyFloat.f0_6
  = ([], (false, "missing.pdf", "File not found: missing.pdf")).
Proof.
  intros Hmissing.
  unfold pdf_first_page_to_jpg, pdf_first_page_to_jpg_body.
  change (PyPath.str (PyPath.Path "missing.pdf")) with "missing.pdf".
  rewrite Hmissing. reflexivity.
Qed.

Lemma convert_missing_pdf_witness :
  pdf_first_page_to_jpg Demo.env "missing.pdf" None 200 95 PyFloat.f0_6
  = ([], (false, "missing.pdf", "File not found: missing.pdf")).
Proof. apply (convert_missing_pdf Demo.env None). reflexivity. Defined.

(** C3.  [pdf_first_page_to_jpg] hands its caller an outcome on every
    input: its [try] block spans the whole body and its handler returns a
    triple.  Whichever step throws (probing the file, creating the output
    directory, rendering, scaling, resizing, writing the JPEG), the outcome
    is the failure [(False, str(pdf_path), message)] with the message of the
    exception. *)
Theorem convert_catches_every_exception (env : Env) (pdf_path : string)
    (output_dir : option string) (dpi quality : Z) (scale_factor : spec_float)
    (msg : string) :
  step_raises env pdf_path output_dir dpi quality scale_factor msg ->
  snd (pdf_first_page_to_jpg env pdf_path output_dir dpi quality scale_factor)
  = (false, PyPath.str (PyPath.Path pdf_path), msg).
Proof.
  unfold pdf_first_page_to_jpg, pdf_first_page_to_jpg_body, ready.
  intros [Hex | d Hex Hsfx -> Hmk | (Hex & Hsfx & Hdir) Hrender
          | page rest (Hex & Hsfx & Hdir) Hrender Hw
          | page rest nw (Hex & Hsfx & Hdir) Hrender Hw Hh
          | page rest nw nh (Hex & Hsfx & Hdir) Hrender Hw Hh Hrs
          | page rest nw nh img (Hex & Hsfx & Hdir) Hrender Hw Hh Hrs Hsave];
    rewrite Hex; simpl; try reflexivity; rewrite Hsfx; simpl.
  - rewrite Hmk. reflexivity.
  - destruct output_dir as [d|]; simpl; rewrite ?Hdir; simpl;
      rewrite Hrender; reflexivity.
  - destruct output_dir as [d|]; simpl; rewrite ?Hdir; simpl;
      rewrite Hrender; simpl; simpl in Hw; rewrite Hw; reflexivity.
  - destruct output_dir as [d|]; simpl; rewrite ?Hdir; simpl;
      rewrite Hrender; simpl; simpl in Hw, Hh; rewrite Hw; simpl;
      rewrite Hh; reflexivity.
  - destruct output_dir as [d|]; simpl; rewrite ?Hdir; simpl;
      rewrite Hrender; simpl; simpl in Hw, Hh; rewrite Hw; simpl;
      rewrite Hh; simpl; rewrite Hrs; reflexivity.
  - unfold output_path_for in Hsave.
    destruct output_dir as [d|]; simpl; rewrite ?Hdir; simpl;
      rewrite Hrender; simpl; simpl in Hw, Hh; rewrite Hw; simpl;
      rewrite Hh; simpl; rewrite Hrs; simpl; rewrite Hsave; reflexivity.
Qed.

Lemma convert_catches_every_exception_witness :
  snd (pdf_first_page_to_jpg Demo.env "b.pdf" None 200 95 PyFloat.f0_6)
  = (false, "b.pdf", "Unable to get page count.").
Proof.
  apply (convert_catches_every_exception Demo.env "b.pdf" None 200 95 PyFloat.f0_6).
  apply raises_render; [repeat split; reflexivity | reflexivity].
Defined.

(** *** Scaling a dimension *)

Section Scaling.

Import PyFloat.

  (** Rounding keeps the sign it is given. *)
Lemma binary_round_aux_nonneg (m e : Z) (l : location) :
    nonneg (binary_round_aux prec emax false m e l).
  Proof.
    unfold binary_round_aux.
    destruct (shr_fexp prec emax m e l) as [mrs' e'].
    destruct (shr_fexp prec emax _ e' loc_Exact) as [mrs'' e''].
    destruct (shr_m mrs''); simpl; auto.
    destruct (Z.leb e'' (Z.sub emax prec)); simpl; auto.
  Qed.

Lemma of_int_nonneg (n : Z) (f : spec_float) :
    0 <= n -> of_int n = Ok f -> nonneg f.
  Proof.
    unfold of_int, binary_normalize. intros Hn.
    destruct n as [|m|m]; [| |lia].
    - intros [= <-]. exact I.
    - unfold binary_round.
      destruct (shl_align m 0 _) as [mz ez].
      pose proof (binary_round_aux_nonneg (Zpos mz) ez loc_Exact) as Hsign.
      destruct (binary_round_aux prec emax false (Zpos mz) ez loc_Exact);
        intros [= <-]; exact Hsign.
  Qed.

Lemma mul_nonneg (x y : spec_float) : nonneg x -> nonneg y -> nonneg (mul x y).
  Proof.
    destruct x as [sx|sx| |[] mx ex], y as [sy|sy| |[] my ey];
      simpl; try tauto; intros _ _;
      try (destruct (xorb _ _); exact I).
    apply binary_round_aux_nonneg.
  Qed.

  (** A scale factor above [0.1] is not negative. *)
Lemma above_tenth_nonneg (x : spec_float) : ltb f0_1 x = true -> nonneg x.
  Proof. destruct x as [s|s| |[] m e]; simpl; try tauto. discriminate. Qed.

  (** Truncation and floor agree away from the negative numbers. *)
Lemma to_int_floor (x : spec_float) (n : Z) :
    nonneg x -> to_int x = Ok n -> floor x = Some n.
  Proof.
    destruct x as [s|s| |[] m e]; simpl; try discriminate; try tauto.
    - intros _ [= <-]. reflexivity.
    - intros _ [= <-]. reflexivity.
  Qed.

Lemma int_of_product_floor (d : N) (x : spec_float) (n : Z) :
    ltb f0_1 x = true ->
    int_of_product (Z.of_N d) x = Ok n ->
    floor_of_product (Z.of_N d) x = Some n.
  Proof.
    unfold int_of_product, floor_of_product, int_mul. intros Hx.
    destruct (of_int (Z.of_N d)) as [msg|f] eqn:Hf; [discriminate|].
    apply to_int_floor, mul_nonneg.
    - apply (of_int_nonneg (Z.of_N d)); [lia | exact Hf].
    - now apply above_tenth_nonneg.
  Qed.

End Scaling.

(** C2.  When a conversion succeeds with a scale factor in (0.1, 2.0], the
    image written as JPEG has the size
    [floor(original_width * scale_factor)] by
    [floor(original_height * scale_factor)], each dimension scaled and
    rounded down on its own; the products are those of Python floats, and
    Pillow is taken to return an image of the size it is asked for. *)
Theorem convert_dimensions (env : Env) (pdf_path : string)
    (output_dir : option string) (dpi quality : Z) (scale_factor : spec_float)
    (tr : list event) (src out : string) :
  resize_contract env ->
  PyFloat.ltb PyFloat.f0_1 scale_factor = true ->
  PyFloat.leb scale_factor PyFloat.f2_0 = true ->
  pdf_first_page_to_jpg env pdf_path output_dir dpi quality scale_factor
  = (tr, (true, src, out)) ->
  exists page rest jpeg w h,
    convert_from_path env (PyPath.str (PyPath.Path pdf_path)) dpi = Ok (page :: rest) /\
    EvSaveJpeg jpeg out quality ∈ tr /\
    PyFloat.floor_of_product (Z.of_N (img_width page)) scale_factor = Some w /\
    PyFloat.floor_of_product (Z.of_N (img_height page)) scale_factor = Some h /\
    size jpeg = (w, h).
Proof.
  intros Hresize Hlow _.
  unfold pdf_first_page_to_jpg, pdf_first_page_to_jpg_body.
  destruct (path_exists env _) as [m|[|]]; simpl; try discriminate.
  destruct (negb _); simpl; [discriminate|].
  set (run_dir := match output_dir with None => _ | Some d => _ end).
  destruct run_dir as [tr0 [m|dir]]; simpl; [discriminate|].
  destruct (convert_from_path env _ dpi) as [m|[|page rest]]; simpl;
    try discriminate.
  destruct (PyFloat.int_of_product (Z.of_N (img_width page)) scale_factor)
    as [m|w] eqn:Hw; simpl; [discriminate|].
  destruct (PyFloat.int_of_product (Z.of_N (img_height page)) scale_factor)
    as [m|h] eqn:Hh; simpl; [discriminate|].
  destruct (resize env page (w, h)) as [m|jpeg] eqn:Hjpeg; simpl; [discriminate|].
  destruct (save_jpeg env jpeg _ quality) as [m|[]]; simpl; [discriminate|].
  intros [= <- <- <-].
  exists page, rest, jpeg, w, h. repeat split.
  - apply elem_of_app. right. apply list_elem_of_further, list_elem_of_here.
  - now apply int_of_product_floor.
  - now apply int_of_product_floor.
  - now apply (Hresize page).
Qed.

Lemma demo_resize_contract : resize_contract Demo.env.
Proof.
  intros img [w h] img'. simpl.
  destruct (Z.ltb_spec w 1), (Z.ltb_spec h 1); simpl; try discriminate.
  intros [= <-]. unfold size. simpl. rewrite !Z2N.id by lia. reflexivity.
Qed.

Lemma convert_dimensions_witness :
  exists page rest jpeg w h,
    convert_from_path Demo.env "a.pdf" 200 = Ok (page :: rest) /\
    EvSaveJpeg jpeg "out/a.jpg" 95
      ∈ [EvMkdir "out"; EvRender "a.pdf" 200;
         EvSaveJpeg (mkImage 600 840 0) "out/a.jpg" 95] /\
    PyFloat.floor_of_product (Z.of_N (img_width page)) PyFloat.f0_6 = Some w /\
    PyFloat.floor_of_product (Z.of_N (img_height page)) PyFloat.f0_6 = Some h /\
    size jpeg = (w, h).
Proof.
  apply (convert_dimensions Demo.env "a.pdf" (Some "out") 200 95 PyFloat.f0_6
           _ "a.pdf" "out/a.jpg").
  - exact demo_resize_contract.
  - reflexivity.
  - reflexivity.
  - vm_compute. reflexivity.
Defined.

(** The product is rounded to a double before it is truncated: against the
    exact product of the integer and the double, or against the decimal
    numeral of the source, the result can be one off. *)
Remark product_is_rounded_first :
  PyFloat.int_of_product 5 PyFloat.f0_6 = Ok 3 /\
  (5 * 5404319552844595) / 2 ^ 53 = 2 /\
  PyFloat.int_of_product 100 PyFloat.f0_29 = Ok 28.
Proof. repeat split; vm_compute; reflexivity. Qed.

(* ===================================================================== *)
(** ** Batch orchestrator *)
(* ===================================================================== *)

Section Batch.

  (** Whatever the picks, every future completes exactly once. *)
Lemma drain_Permutation {A} (picks : list nat) (n : nat) (pending : list A) :
    length pending = n -> drain picks n pending ≡ₚ pending.
  Proof.
    revert picks pending. induction n as [|n IH]; intros picks pending Hlen.
    - apply length_zero_iff_nil in Hlen. now subst.
    - simpl.
      assert (Hk : (hd 0 picks mod length pending < length pending)%nat)
        by (apply Nat.mod_upper_bound; lia).
      apply lookup_lt_is_Some_2 in Hk as [fut Hfut].
      rewrite Hfut.
      etrans; [|symmetry; apply (delete_Permutation pending _ _ Hfut)].
      constructor. apply IH.
      pose proof (length_delete pending _ (ex_intro _ fut Hfut)). lia.
  Qed.

Lemma as_completed_Permutation {A} (env : Env) (futures : list A) :
    as_completed env futures ≡ₚ futures.
  Proof. now apply drain_Permutation. Qed.

Lemma collect_loop (completed results : list outcome) (successful failed : Z) :
    fold_left
      (fun '(results, successful, failed) (o : outcome) =>
         let '(success, pdf_path, result_path_or_error) := o in
         let results := results ++ [(success, pdf_path, result_path_or_error)] in
         if success then (results, successful + 1, failed)
         else (results, successful, failed + 1))
      completed (results, successful, failed)
    = (results ++ completed,
       successful + Z.of_nat (length (filter (fun o => succeeded o = true) completed)),
       failed + Z.of_nat (length (filter (fun o => succeeded o = false) completed))).
  Proof.
    revert results successful failed.
    induction completed as [|[[[|] src] msg] completed IH]; intros;
      cbn [fold_left].
    - simpl. now rewrite app_nil_r, !Z.add_0_r.
    - rewrite IH.
      rewrite (filter_cons_True (fun o => succeeded o = true)) by reflexivity.
      rewrite (filter_cons_False (fun o => succeeded o = false)) by discriminate.
      rewrite <- app_assoc. simpl length.
      repeat match goal with |- (_, _) = (_, _) => f_equal end;
        try reflexivity; lia.
    - rewrite IH.
      rewrite (filter_cons_False (fun o => succeeded o = true)) by discriminate.
      rewrite (filter_cons_True (fun o => succeeded o = false)) by reflexivity.
      rewrite <- app_assoc. simpl length.
      repeat match goal with |- (_, _) = (_, _) => f_equal end;
        try reflexivity; lia.
  Qed.

Lemma collect_counts (completed : list outcome) :
    collect completed
    = (completed,
       Z.of_nat (length (filter (fun o => succeeded o = true) completed)),
       Z.of_nat (length (filter (fun o => succeeded o = false) completed))).
  Proof. unfold collect. now rewrite collect_loop. Qed.

Lemma succeeded_or_failed (l : list outcome) :
    (length (filter (fun o => succeeded o = true) l)
     + length (filter (fun o => succeeded o = false) l) = length l)%nat.
  Proof.
    induction l as [|o l IH]; [reflexivity|].
    destruct (succeeded o) eqn:Ho.
    - rewrite (filter_cons_True (fun o => succeeded o = true)) by exact Ho.
      rewrite (filter_cons_False (fun o => succeeded o = false)) by congruence.
      simpl. lia.
    - rewrite (filter_cons_False (fun o => succeeded o = true)) by congruence.
      rewrite (filter_cons_True (fun o => succeeded o = false)) by exact Ho.
      simpl. lia.
  Qed.

Lemma length_filter_map {A B} (f : A -> B) (P : B -> Prop)
      `{!forall b, Decision (P b)} `{!forall a, Decision (P (f a))}
      (l : list A) :
    length (filter P (map f l)) = length (filter (fun a => P (f a)) l).
  Proof.
    induction l as [|a l IH]; [reflexivity|]. cbn [map].
    destruct (decide (P (f a))) as [Ha|Ha].
    - rewrite (filter_cons_True P) by exact Ha.
      rewrite (filter_cons_True (fun a => P (f a))) by exact Ha.
      simpl. now rewrite IH.
    - rewrite (filter_cons_False P) by exact Ha.
      rewrite (filter_cons_False (fun a => P (f a))) by exact Ha.
      exact IH.
  Qed.

Lemma length_filter_Permutation {A} (P : A -> Prop)
      `{!forall a, Decision (P a)} (l1 l2 : list A) :
    l1 ≡ₚ l2 -> length (filter P l1) = length (filter P l2).
  Proof. intros Hperm. now rewrite Hperm. Qed.

  (** The two dictionaries that [process_pdfs_bulk] returns. *)
Lemma summary_lookups (total successful failed results elapsed : value) :
    let summary : gmap string value :=
      {[ "total" := total; "successful" := successful; "failed" := failed;
         "results" := results; "elapsed_time" := elapsed ]} in
    summary !! "total" = Some total /\
    summary !! "successful" = Some successful /\
    summary !! "failed" = Some failed /\
    summary !! "results" = Some results /\
    summary !! "elapsed_time" = Some elapsed.
  Proof. repeat split; reflexivity. Qed.

Lemma empty_summary_lookups (total successful failed results : value) :
    let summary : gmap string value :=
      {[ "total" := total; "successful" := successful; "failed" := failed;
         "results" := results ]} in
    summary !! "total" = Some total /\
    summary !! "successful" = Some successful /\
    summary !! "failed" = Some failed /\
    summary !! "results" = Some results /\
    summary !! "elapsed_time" = None.
  Proof. repeat split; reflexivity. Qed.

End Batch.

(** With at least one worker the batch returns, and its summary counts
    the outcomes of its tasks. *)
Lemma process_pdfs_bulk_summary (env : Env) (input_paths : list string)
    (output_dir : option string) (dpi quality max_workers : Z)
    (scale_factor : spec_float) :
  0 < max_workers ->
  let N := Z.of_nat (length (find_pdf_files env input_paths)) in
  let K := Z.of_nat (length (failing_files env input_paths output_dir
                               dpi quality scale_factor)) in
  exists tr summary results,
    process_pdfs_bulk env input_paths output_dir dpi quality max_workers scale_factor
    = (tr, Ok summary) /\
    summary !! "total" = Some (VInt N) /\
    summary !! "successful" = Some (VInt (N - K)) /\
    summary !! "failed" = Some (VInt K) /\
    summary !! "results" = Some (VResults results) /\
    Z.of_nat (length results) = N /\
    results ≡ₚ map (fun pdf_file =>
                      snd (pdf_first_page_to_jpg env pdf_file output_dir
                             dpi quality scale_factor))
                   (find_pdf_files env input_paths).
Proof.
  intros Hworkers N K. subst N K.
  unfold process_pdfs_bulk, failing_files.
  destruct (find_pdf_files env input_paths) as [|pdf_file pdf_files] eqn:Hfiles.
  - eexists [], _, []. split; [reflexivity|].
    destruct (empty_summary_lookups (VInt 0) (VInt 0) (VInt 0) (VResults []))
      as (Ht & Hs & Hf & Hr & _).
    repeat split; try assumption; reflexivity.
  - destruct (Z.leb_spec max_workers 0) as [Hle|_]; [lia|].
    set (files := pdf_file :: pdf_files).
    set (task := fun pdf_file =>
                   pdf_first_page_to_jpg env pdf_file output_dir
                     dpi quality scale_factor).
    set (completed := as_completed env (map task files)).
    assert (Hperm : map snd completed ≡ₚ map (fun f => snd (task f)) files).
    { unfold completed. rewrite (as_completed_Permutation env (map task files)).
      now rewrite map_map. }
    rewrite collect_counts.
    pose proof (succeeded_or_failed (map snd completed)) as Hsum.
    assert (Hfailed :
      length (filter (fun o => succeeded o = false) (map snd completed))
      = length (filter (fun f => succeeded (snd (task f)) = false) files)).
    { rewrite (length_filter_Permutation _ _ _ Hperm).
      apply (length_filter_map (fun f => snd (task f))
               (fun o => succeeded o = false)). }
    assert (Hlen : length (map snd completed) = length files).
    { rewrite (Permutation_length Hperm). apply length_map. }
    unfold task in Hperm, Hfailed. cbv beta in Hperm, Hfailed.
    eexists _, _, (map snd completed). split; [reflexivity|].
    match goal with
    | |- context [ {[ "total" := ?t; "successful" := ?s; "failed" := ?f;
                      "results" := ?r; "elapsed_time" := ?e ]} ] =>
        destruct (summary_lookups t s f r e) as (Ht & Hs & Hf & Hr & _)
    end.
    rewrite Ht, Hs, Hf, Hr, <- Hfailed.
    repeat split.
    + do 2 f_equal. lia.
    + lia.
    + exact Hperm.
Qed.


(** C1.  A batch over the N resolved files of which K fail to convert
    returns (the pool being given at least one worker) a summary with
    [total = N], [successful = N - K], [failed = K] and N results, one per
    file, in completion order. *)
Theorem batch_summary_counts (env : Env) (input_paths : list string)
    (output_dir : option string) (dpi quality max_workers : Z)
    (scale_factor : spec_float) :
  0 < max_workers ->
  let N := Z.of_nat (length (find_pdf_files env input_paths)) in
  let K := Z.of_nat (length (failing_files env input_paths output_dir
                               dpi quality scale_factor)) in
  exists tr summary results,
    process_pdfs_bulk env input_paths output_dir dpi quality max_workers scale_factor
    = (tr, Ok summary) /\
    summary !! "total" = Some (VInt N) /\
    summary !! "successful" = Some (VInt (N - K)) /\
    summary !! "failed" = Some (VInt K) /\
    summary !! "results" = Some (VResults results) /\
    Z.of_nat (length results) = N /\
    results ≡ₚ map (fun pdf_file =>
                      snd (pdf_first_page_to_jpg env pdf_file output_dir
                             dpi quality scale_factor))
                   (find_pdf_files env input_paths).
Proof.
  apply process_pdfs_bulk_summary.
Qed.

Lemma batch_summary_counts_witness :
  exists tr summary results,
    process_pdfs_bulk Demo.env ["a.pdf"; "b.pdf"; "in"] None 200 95 2 PyFloat.f0_6
    = (tr, Ok summary) /\
    summary !! "total" = Some (VInt 4) /\
    summary !! "successful" = Some (VInt (4 - 1)) /\
    summary !! "failed" = Some (VInt 1) /\
    summary !! "results" = Some (VResults results) /\
    Z.of_nat (length results) = 4 /\
    results ≡ₚ map (fun pdf_file =>
                      snd (pdf_first_page_to_jpg Demo.env pdf_file None
                             200 95 PyFloat.f0_6))
                   (find_pdf_files Demo.env ["a.pdf"; "b.pdf"; "in"]).
Proof.
  apply (batch_summary_counts Demo.env ["a.pdf"; "b.pdf"; "in"] None 200 95 2
           PyFloat.f0_6).
  lia.
Defined.

(** C7, what the code does.  When the inputs resolve to no file,
    [process_pdfs_bulk] returns at once, with an empty trace and whatever
    [max_workers] is, the dictionary of the four keys [total], [successful],
    [failed] (all 0) and [results] (empty): the key [elapsed_time], which
    the summary of a non-empty batch has, is missing. *)
Theorem empty_batch_summary (env : Env) (input_paths : list string)
    (output_dir : option string) (dpi quality max_workers : Z)
    (scale_factor : spec_float) :
  find_pdf_files env input_paths = [] ->
  exists summary,
    process_pdfs_bulk env input_paths output_dir dpi quality max_workers scale_factor
    = ([], Ok summary) /\
    summary !! "total" = Some (VInt 0) /\
    summary !! "successful" = Some (VInt 0) /\
    summary !! "failed" = Some (VInt 0) /\
    summary !! "results" = Some (VResults []) /\
    summary !! "elapsed_time" = None.
Proof.
  intros Hnone. unfold process_pdfs_bulk. rewrite Hnone.
  eexists. split; [reflexivity|].
  apply (empty_summary_lookups (VInt 0) (VInt 0) (VInt 0) (VResults [])).
Qed.

Lemma empty_batch_summary_witness :
  exists summary,
    process_pdfs_bulk Demo.env ["nothing"] None 200 95 4 PyFloat.f0_6
    = ([], Ok summary) /\
    summary !! "total" = Some (VInt 0) /\
    summary !! "successful" = Some (VInt 0) /\
    summary !! "failed" = Some (VInt 0) /\
    summary !! "results" = Some (VResults []) /\
    summary !! "elapsed_time" = None.
Proof.
  apply (empty_batch_summary Demo.env ["nothing"] None 200 95 4 PyFloat.f0_6).
  vm_compute. reflexivity.
Defined.

(** A batch that is not empty does carry [elapsed_time]. *)
Remark nonempty_batch_has_elapsed_time :
  exists tr summary x,
    process_pdfs_bulk Demo.env ["a.pdf"] None 200 95 4 PyFloat.f0_6
    = (tr, Ok summary) /\
    summary !! "elapsed_time" = Some (VFloat x).
Proof. eexists _, _, _. split; vm_compute; reflexivity. Qed.

(* ===================================================================== *)
(** ** Command line *)
(* ===================================================================== *)

Section CommandLine.

Variable env : Env.




End CommandLine.




(* ===================================================================== *)
(** ** Web upload handler *)
(* ===================================================================== *)

(** The files of a request and, among them, those the handler keeps. *)
Lemma allowed_file_truthy (file : Upload) :
  allowed_file (filename file) = true -> truthy file = true.
Proof.
  unfold allowed_file, truthy. destruct (filename file); [discriminate|reflexivity].
Qed.





Section Upload.

Variable env : Env.

(** The saving loop touches the accepted files only, in their order. *)
Lemma save_uploads_accepted (files : list Upload) :
  Forall (fun e => exists file, file ∈ accepted files /\
                     e = EvUploadSave file (upload_path env file))
         (fst (save_uploads env files)) /\
  (forall uploaded_files,
      snd (save_uploads env files) = Ok uploaded_files ->
      uploaded_files = map (upload_path env) (accepted files)).
Proof.
  induction files as [|file rest [IHtr IHok]]; [split; [constructor|]|].
  - intros l [= <-]. reflexivity.
  - cbn [save_uploads]. unfold accepted in *.
    destruct (allowed_file (filename file)) eqn:Hallowed.
    + rewrite (allowed_file_truthy file Hallowed). cbn [andb].
      rewrite (filter_cons_True _ file rest) by exact Hallowed.
      fold (upload_path env file).
      assert (Hrest : Forall
                (fun e => exists f, f ∈ file :: filter
                            (fun f => allowed_file (filename f) = true) rest /\
                          e = EvUploadSave f (upload_path env f))
                (fst (save_uploads env rest))).
      { eapply Forall_impl; [exact IHtr|]. intros e (f & Hf & ->).
        exists f. split; [now apply list_elem_of_further|reflexivity]. }
      assert (Hhere : exists f, f ∈ file :: filter
                          (fun f => allowed_file (filename f) = true) rest /\
                        EvUploadSave file (upload_path env file)
                        = EvUploadSave f (upload_path env f)).
      { exists file. split; [apply list_elem_of_here|reflexivity]. }
      destruct (upload_save env file (upload_path env file)) as [m|[]];
        simpl; [split; [repeat constructor; exact Hhere | discriminate]|].
      destruct (save_uploads env rest) as [tr [m|l]]; simpl in *.
      * split; [constructor; assumption | discriminate].
      * split; [rewrite app_nil_r; constructor; assumption|].
        intros l' [= <-]. f_equal. now apply IHok.
    + rewrite andb_false_r.
      rewrite (filter_cons_False _ file rest) by congruence.
      split; assumption.
Qed.


(** A conversion names its source in its outcome and leaves events of its
    own only. *)
Lemma convert_names_source (pdf_path : string) (output_dir : option string)
    (dpi quality : Z) (scale_factor : spec_float) :
  exists tr success message,
    pdf_first_page_to_jpg env pdf_path output_dir dpi quality scale_factor
    = (tr, (success, PyPath.str (PyPath.Path pdf_path), message)) /\
    Forall (conversion_event pdf_path) tr.
Proof.
  unfold pdf_first_page_to_jpg, pdf_first_page_to_jpg_body.
  destruct (path_exists env _) as [m|[|]]; simpl.
  1,3: eexists _, _, _; split; [reflexivity|constructor].
  destruct (negb _); simpl.
  { eexists _, _, _; split; [reflexivity|constructor]. }
  set (run_dir := match output_dir with None => _ | Some d => _ end).
  assert (Htr0 : Forall (conversion_event pdf_path) (fst run_dir)).
  { subst run_dir. destruct output_dir as [d|]; simpl.
    - destruct (mkdir env _) as [m|[]]; simpl; repeat constructor.
    - constructor. }
  destruct run_dir as [tr0 r]. simpl in Htr0.
  assert (Hevents : forall tail,
             Forall (conversion_event pdf_path) tail ->
             Forall (conversion_event pdf_path) (tr0 ++ tail)).
  { intros tail Htail. apply Forall_app. split; assumption. }
  destruct r as [m|dir]; simpl.
  { eexists _, _, _; split; [reflexivity|exact Htr0]. }
  destruct (convert_from_path env _ dpi) as [m|[|page rest]]; simpl.
  1,2: eexists _, _, _; (split; [reflexivity|]);
       apply Hevents; repeat constructor.
  destruct (PyFloat.int_of_product _ scale_factor) as [m|w]; simpl.
  { eexists _, _, _; (split; [reflexivity|]); apply Hevents; repeat constructor. }
  destruct (PyFloat.int_of_product _ scale_factor) as [m|h]; simpl.
  { eexists _, _, _; (split; [reflexivity|]); apply Hevents; repeat constructor. }
  destruct (resize env page (w, h)) as [m|img]; simpl.
  { eexists _, _, _; (split; [reflexivity|]); apply Hevents; repeat constructor. }
  destruct (save_jpeg env img _ quality) as [m|[]]; simpl;
    eexists _, _, _; (split; [reflexivity|]); apply Hevents; repeat constructor.
Qed.


End Upload.

Lemma upload_files_run (env : Env) (request : Request) :
  upload_run env request (fst (upload_files env request))
                         (snd (upload_files env request)).
Proof.
  unfold upload_files, upload_files_body.
  destruct (req_files request) as [files|] eqn:Hfiles; simpl;
    [|apply run_turned_down].
  destruct (bool_decide (files = []) || forallb _ files)%bool; simpl;
    [apply run_turned_down|].
  destruct (form_dpi request) as [m|dpi] eqn:Hd; simpl;
    [apply run_bad_field; auto|].
  destruct (form_quality request) as [m|quality] eqn:Hq; simpl;
    [apply run_bad_field; auto|].
  destruct (form_scale_factor request) as [m|scale_factor] eqn:Hs; simpl;
    [apply run_bad_field; auto|].
  destruct (negb _); simpl; [apply run_turned_down|].
  destruct (negb _); simpl; [apply run_turned_down|].
  destruct (negb _); simpl; [apply run_turned_down|].
  destruct (save_uploads env files) as [trs [m|[|pdf_path rest]]] eqn:Hsave.
  - simpl. now apply (run_save_failed env request files).
  - simpl. rewrite app_nil_r. now apply (run_none_kept env request files).
  - pose proof (run_converted env request files trs (pdf_path :: rest)
                  dpi quality scale_factor Hfiles Hsave) as Hrun.
    revert Hrun. lazy beta iota delta [bind try_except].
    generalize (convert_uploads env (pdf_path :: rest) dpi quality scale_factor).
    intros [trc [results converted_files]] Hrun. simpl in *.
    apply Hrun. discriminate.
Qed.






(** A request with one PDF among other files: the PDF alone is stored and
    converted, and it alone is counted. *)
Remark upload_mixed_request :
  upload_files Demo.env
    (mkRequest (Some [mkUpload "notes.txt" 1; mkUpload "a.pdf" 2])
               (Ok 200) (Ok 95) (Ok PyFloat.f0_6))
  = ([EvCleanup;
      EvUploadSave (mkUpload "a.pdf" 2) "uploads/a.pdf";
      EvMkdir "outputs";
      EvRender "uploads/a.pdf" 200;
      EvSaveJpeg (mkImage 600 840 0) "outputs/a.jpg" 95],
     (JObject [("success", JBool true);
               ("results",
                JArray [JObject [("filename", JString "a.pdf");
                                 ("status", JString "success");
                                 ("output", JString "a.jpg")]]);
               ("converted_count", JNumber 1);
               ("total_count", JNumber 1)],
      200)).
Proof. vm_compute. reflexivity. Qed.

(** A form field that is no number ends the request with a 500, whatever
    the files. *)
Remark upload_bad_field :
  snd (upload_files Demo.env
         (mkRequest (Some [mkUpload "notes.txt" 1])
                    (Raise "invalid literal for int() with base 10: 'abc'")
                    (Ok 95) (Ok PyFloat.f0_6)))
  = error_response "invalid literal for int() with base 10: 'abc'" 500.
Proof. vm_compute. reflexivity. Qed.

(* ===================================================================== *)
(** ** More on the page converter *)
(* ===================================================================== *)

(** Every run of [pdf_first_page_to_jpg] is of one of the five kinds. *)
Lemma convert_run (env : Env) (pdf_path : string) (output_dir : option string)
    (dpi quality : Z) (scale_factor : spec_float) :
  conversion env pdf_path output_dir dpi quality scale_factor
    (fst (pdf_first_page_to_jpg env pdf_path output_dir dpi quality scale_factor))
    (snd (pdf_first_page_to_jpg env pdf_path output_dir dpi quality scale_factor)).
Proof.
  unfold pdf_first_page_to_jpg, pdf_first_page_to_jpg_body.
  destruct (path_exists env _) as [m|[|]] eqn:Hex; simpl.
  - apply conv_raised. now apply raises_exists.
  - destruct (String.eqb_spec (PyStr.lower (PyPath.suffix (PyPath.Path pdf_path)))
                ".pdf") as [Hsfx|Hsfx]; simpl; [|now apply conv_not_a_pdf].
    assert (Hdir :
      (exists d msg, output_dir = Some d /\
                     mkdir env (PyPath.str (PyPath.Path d)) = Raise msg) \/
      ready env pdf_path output_dir).
    { unfold ready. destruct output_dir as [d|]; [|right; auto].
      destruct (mkdir env (PyPath.str (PyPath.Path d))) as [msg|[]] eqn:Hmk.
      - left. eauto.
      - right. auto. }
    set (run_dir := match output_dir with None => _ | Some d => _ end).
    destruct Hdir as [(d & msg & Hod & Hmk)|Hready].
    { subst output_dir run_dir. simpl. rewrite Hmk. simpl. apply conv_raised.
      now apply (raises_mkdir _ _ _ _ _ _ _ d). }
    assert (Hrun_dir :
      run_dir
      = (dir_events output_dir,
         Ok match output_dir with
            | None => PyPath.parent (PyPath.Path pdf_path)
            | Some d => PyPath.Path d
            end)).
    { subst run_dir. destruct Hready as (_ & _ & Hmk).
      destruct output_dir as [d|]; simpl.
      - now rewrite Hmk.
      - reflexivity. }
    rewrite Hrun_dir. simpl.
    fold (output_path_for pdf_path output_dir).
    destruct (convert_from_path env _ dpi) as [m|[|page rest]] eqn:Hrender; simpl.
    + apply conv_raised. now apply raises_render.
    + now apply conv_no_pages.
    + destruct (PyFloat.int_of_product (Z.of_N (img_width page)) scale_factor)
        as [m|w] eqn:Hw; simpl.
      { apply conv_raised. now apply (raises_scale_width _ _ _ _ _ _ _ page rest). }
      destruct (PyFloat.int_of_product (Z.of_N (img_height page)) scale_factor)
        as [m|h] eqn:Hh; simpl.
      { apply conv_raised.
        now apply (raises_scale_height _ _ _ _ _ _ _ page rest w). }
      destruct (resize env page (w, h)) as [m|jpeg] eqn:Hjpeg; simpl.
      { apply conv_raised.
        now apply (raises_resize _ _ _ _ _ _ _ page rest w h). }
      destruct (save_jpeg env jpeg (output_path_for pdf_path output_dir) quality)
        as [m|[]] eqn:Hsave; simpl.
      { apply conv_raised.
        now apply (raises_save _ _ _ _ _ _ _ page rest w h jpeg). }
      apply conv_done. split; [exact Hready|]. exists page, rest, w, h. auto.
  - now apply conv_not_found.
Qed.

(** X1.  A conversion that fails names its source and is of one of four
    kinds: the file is not there, or its suffix is not [.pdf] in any letter
    case (in both cases nothing at all was done); the rasteriser returned no
    page (nothing was resized or written); or some step threw. *)
Theorem convert_failure_kinds (env : Env) (pdf_path : string)
    (output_dir : option string) (dpi quality : Z) (scale_factor : spec_float)
    (tr : list event) (src msg : string) :
  pdf_first_page_to_jpg env pdf_path output_dir dpi quality scale_factor
  = (tr, (false, src, msg)) ->
  src = PyPath.str (PyPath.Path pdf_path) /\
  ((path_exists env src = Ok false /\ msg = "File not found: " +:+ src /\ tr = []) \/
   (path_exists env src = Ok true /\
    PyStr.lower (PyPath.suffix (PyPath.Path pdf_path)) <> ".pdf" /\
    msg = "Not a PDF file" /\ tr = []) \/
   (ready env pdf_path output_dir /\
    convert_from_path env src dpi = Ok [] /\
    msg = "No pages found in PDF" /\
    tr = dir_events output_dir ++ [EvRender src dpi]) \/
   step_raises env pdf_path output_dir dpi quality scale_factor msg).
Proof.
  intros Hrun.
  pose proof (convert_run env pdf_path output_dir dpi quality scale_factor) as Hcase.
  rewrite Hrun in Hcase. simpl in Hcase.
  inversion Hcase as [Hex Htr Hout | Hex Hsfx Htr Hout | Hready Hrender Htr Hout
                     | tr' msg' Hraise Htr Hout | jpeg Hconv Htr Hout];
    subst; (split; [reflexivity|]).
  - left. auto.
  - right. left. auto.
  - right. right. left. auto.
  - right. right. right. assumption.
Qed.

Lemma convert_failure_kinds_witness :
  "Scan.Pdf.txt" = PyPath.str (PyPath.Path "Scan.Pdf.txt") /\
  ((path_exists Demo.env "Scan.Pdf.txt" = Ok false /\
    "File not found: Scan.Pdf.txt" = "File not found: " +:+ "Scan.Pdf.txt" /\
    @nil event = []) \/
   (path_exists Demo.env "Scan.Pdf.txt" = Ok true /\
    PyStr.lower (PyPath.suffix (PyPath.Path "Scan.Pdf.txt")) <> ".pdf" /\
    "File not found: Scan.Pdf.txt" = "Not a PDF file" /\ @nil event = []) \/
   (ready Demo.env "Scan.Pdf.txt" None /\
    convert_from_path Demo.env "Scan.Pdf.txt" 200 = Ok [] /\
    "File not found: Scan.Pdf.txt" = "No pages found in PDF" /\
    [] = dir_events None ++ [EvRender "Scan.Pdf.txt" 200]) \/
   step_raises Demo.env "Scan.Pdf.txt" None 200 95 PyFloat.f0_6
     "File not found: Scan.Pdf.txt").
Proof.
  apply (convert_failure_kinds Demo.env "Scan.Pdf.txt" None 200 95 PyFloat.f0_6).
  vm_compute. reflexivity.
Defined.

(** X2.  A conversion that succeeds names its source, reports
    [<output directory>/<stem>.jpg] (the directory of the source when none
    is given), and did exactly this: create the output directory when one
    is given, render the first page at [dpi], write one JPEG at that path
    with [quality]; every step went through. *)
Theorem convert_success_shape (env : Env) (pdf_path : string)
    (output_dir : option string) (dpi quality : Z) (scale_factor : spec_float)
    (tr : list event) (src out : string) :
  pdf_first_page_to_jpg env pdf_path output_dir dpi quality scale_factor
  = (tr, (true, src, out)) ->
  src = PyPath.str (PyPath.Path pdf_path) /\
  out = output_path_for pdf_path output_dir /\
  exists jpeg,
    converts env pdf_path output_dir dpi quality scale_factor jpeg /\
    tr = dir_events output_dir ++ [EvRender src dpi; EvSaveJpeg jpeg out quality].
Proof.
  intros Hrun.
  pose proof (convert_run env pdf_path output_dir dpi quality scale_factor) as Hcase.
  rewrite Hrun in Hcase. simpl in Hcase.
  inversion Hcase as [| | | | jpeg Hconv Htr Hout]; subst.
  repeat split. exists jpeg. auto.
Qed.

Lemma convert_success_shape_witness :
  "a.pdf" = PyPath.str (PyPath.Path "a.pdf") /\
  "out/a.jpg" = output_path_for "a.pdf" (Some "out") /\
  exists jpeg,
    converts Demo.env "a.pdf" (Some "out") 200 95 PyFloat.f0_6 jpeg /\
    [EvMkdir "out"; EvRender "a.pdf" 200;
     EvSaveJpeg (mkImage 600 840 0) "out/a.jpg" 95]
    = dir_events (Some "out")
      ++ [EvRender "a.pdf" 200; EvSaveJpeg jpeg "out/a.jpg" 95].
Proof.
  apply (convert_success_shape Demo.env "a.pdf" (Some "out") 200 95 PyFloat.f0_6).
  vm_compute. reflexivity.
Defined.

(** X3.  When every step goes through, the conversion succeeds: it returns
    [(True, str(pdf_path), output path)] after creating the directory (if
    one is given), rendering, and writing the JPEG. *)
Theorem convert_succeeds (env : Env) (pdf_path : string)
    (output_dir : option string) (dpi quality : Z) (scale_factor : spec_float)
    (jpeg : Image) :
  converts env pdf_path output_dir dpi quality scale_factor jpeg ->
  pdf_first_page_to_jpg env pdf_path output_dir dpi quality scale_factor
  = (dir_events output_dir
     ++ [EvRender (PyPath.str (PyPath.Path pdf_path)) dpi;
         EvSaveJpeg jpeg (output_path_for pdf_path output_dir) quality],
     (true, PyPath.str (PyPath.Path pdf_path), output_path_for pdf_path output_dir)).
Proof.
  intros ((Hex & Hsfx & Hdir) & page & rest & w & h & Hrender & Hw & Hh & Hrs & Hsave).
  unfold pdf_first_page_to_jpg, pdf_first_page_to_jpg_body.
  rewrite Hex. simpl. rewrite Hsfx. simpl.
  unfold output_path_for in *.
  destruct output_dir as [d|]; simpl; rewrite ?Hdir; simpl;
    rewrite Hrender; simpl; simpl in Hw, Hh; rewrite Hw; simpl;
    rewrite Hh; simpl; rewrite Hrs; simpl; rewrite Hsave; reflexivity.
Qed.

Lemma convert_succeeds_witness :
  pdf_first_page_to_jpg Demo.env "in/b.PDF" None 300 80 PyFloat.f0_6
  = ([EvRender "in/b.PDF" 300; EvSaveJpeg (mkImage 600 840 0) "in/b.jpg" 80],
     (true, "in/b.PDF", "in/b.jpg")).
Proof.
  apply (convert_succeeds Demo.env "in/b.PDF" None 300 80 PyFloat.f0_6
           (mkImage 600 840 0)).
  split; [repeat split; reflexivity|].
  exists Demo.page, [], 600, 840. repeat split; reflexivity.
Defined.

(** X4.  No collision detection: two sources with the same stem converted
    into the same output directory report the same output path, and the
    JPEG of each was written there, the later over the earlier. *)
Theorem convert_same_stem_overwrites (env : Env) (pdf1 pdf2 d : string)
    (dpi quality : Z) (scale_factor : spec_float)
    (tr1 tr2 : list event) (src1 src2 out1 out2 : string) :
  PyPath.stem (PyPath.Path pdf1) = PyPath.stem (PyPath.Path pdf2) ->
  pdf_first_page_to_jpg env pdf1 (Some d) dpi quality scale_factor
  = (tr1, (true, src1, out1)) ->
  pdf_first_page_to_jpg env pdf2 (Some d) dpi quality scale_factor
  = (tr2, (true, src2, out2)) ->
  out1 = out2 /\
  exists jpeg1 jpeg2,
    EvSaveJpeg jpeg1 out1 quality ∈ tr1 /\ EvSaveJpeg jpeg2 out1 quality ∈ tr2.
Proof.
  intros Hstem Hrun1 Hrun2.
  pose proof (convert_run env pdf1 (Some d) dpi quality scale_factor) as Hcase1.
  pose proof (convert_run env pdf2 (Some d) dpi quality scale_factor) as Hcase2.
  rewrite Hrun1 in Hcase1. rewrite Hrun2 in Hcase2. simpl in Hcase1, Hcase2.
  inversion Hcase1 as [| | | | jpeg1 _ Htr1 Hout1]; subst.
  inversion Hcase2 as [| | | | jpeg2 _ Htr2 Hout2]; subst.
  assert (Hsame : output_path_for pdf1 (Some d) = output_path_for pdf2 (Some d))
    by (unfold output_path_for; now rewrite Hstem).
  split; [exact Hsame|]. exists jpeg1, jpeg2. rewrite Hsame. split.
  - rewrite <- Hsame. apply elem_of_app. right.
    apply list_elem_of_further, list_elem_of_here.
  - apply elem_of_app. right. apply list_elem_of_further, list_elem_of_here.
Qed.

Lemma convert_same_stem_overwrites_witness :
  "out/a.jpg" = "out/a.jpg" /\
  exists jpeg1 jpeg2,
    EvSaveJpeg jpeg1 "out/a.jpg" 95
      ∈ [EvMkdir "out"; EvRender "a.pdf" 200;
         EvSaveJpeg (mkImage 600 840 0) "out/a.jpg" 95] /\
    EvSaveJpeg jpeg2 "out/a.jpg" 95
      ∈ [EvMkdir "out"; EvRender "in/a.pdf" 200;
         EvSaveJpeg (mkImage 600 840 0) "out/a.jpg" 95].
Proof.
  apply (convert_same_stem_overwrites Demo.env "a.pdf" "in/a.pdf" "out" 200 95
           PyFloat.f0_6 _ _ "a.pdf" "in/a.pdf").
  - reflexivity.
  - vm_compute. reflexivity.
  - vm_compute. reflexivity.
Defined.

(* ===================================================================== *)
(** ** More on the input resolver *)
(* ===================================================================== *)



Lemma find_pdf_files_collected (env : Env) (inputs : list string) :
  find_pdf_files env inputs = sorted_set (concat (map (found_for env) inputs)).
Proof. unfold find_pdf_files. now rewrite find_loop_concat. Qed.

Lemma sorted_set_same_elements (l1 l2 : list string) :
  (forall p, p ∈ l1 <-> p ∈ l2) -> sorted_set l1 = sorted_set l2.
Proof.
  intros Hsame. unfold sorted_set. do 2 f_equal.
  apply set_eq. intros p. rewrite !elem_of_list_to_set. apply Hsame.
Qed.


(** X5.  The result depends on the inputs as a set only: two lists with the
    same inputs, in any order and with any repetition, resolve to the same
    list of files. *)
Theorem find_pdf_files_same_inputs (env : Env) (inputs1 inputs2 : list string) :
  (forall i, i ∈ inputs1 <-> i ∈ inputs2) ->
  find_pdf_files env inputs1 = find_pdf_files env inputs2.
Proof.
  intros Hsame. rewrite !find_pdf_files_collected.
  apply sorted_set_same_elements. intros p.
  rewrite !list_elem_of_In, !in_concat. split.
  - intros (l & Hl & Hp). apply in_map_iff in Hl as (i & <- & Hi).
    exists (found_for env i). split; [|exact Hp].
    apply in_map, list_elem_of_In, Hsame, list_elem_of_In, Hi.
  - intros (l & Hl & Hp). apply in_map_iff in Hl as (i & <- & Hi).
    exists (found_for env i). split; [|exact Hp].
    apply in_map, list_elem_of_In, Hsame, list_elem_of_In, Hi.
Qed.

Lemma find_pdf_files_same_inputs_witness :
  find_pdf_files Demo.env ["in"; "a.pdf"; "in"]
  = find_pdf_files Demo.env ["a.pdf"; "in"].
Proof.
  apply (find_pdf_files_same_inputs Demo.env ["in"; "a.pdf"; "in"] ["a.pdf"; "in"]).
  intros i. rewrite !elem_of_cons. rewrite !elem_of_nil. tauto.
Defined.


(** X7.  Nothing that an input contributes is lost: an existing file with
    a [.pdf] suffix in any letter case is returned under its normalised
    path; below an existing directory every match of [*.pdf] and of [*.PDF]
    is returned; what a wildcard input matches is returned. *)
Theorem find_pdf_files_complete (env : Env) (inputs : list string) (i : string) :
  i ∈ inputs ->
  let path := PyPath.str (PyPath.Path i) in
  let is_pdf_file :=
    (is_file env path
     && String.eqb (PyStr.lower (PyPath.suffix (PyPath.Path i))) ".pdf")%bool in
  (is_pdf_file = true -> path ∈ find_pdf_files env inputs) /\
  (is_pdf_file = false -> is_dir env path = true ->
   forall p, p ∈ rglob env path "*.pdf" \/ p ∈ rglob env path "*.PDF" ->
             p ∈ find_pdf_files env inputs) /\
  (is_pdf_file = false -> is_dir env path = false ->
   (PyStr.contains "*" path || PyStr.contains "?" path)%bool = true ->
   forall p, p ∈ glob_glob env path -> p ∈ find_pdf_files env inputs).
Proof.
  intros Hi path is_pdf_file. subst path is_pdf_file.
  split; [|split].
  - intros Hfile. apply find_pdf_files_elem_of. exists i. split; [exact Hi|].
    unfold found_for. rewrite Hfile. apply list_elem_of_here.
  - intros Hfile Hdir p Hp. apply find_pdf_files_elem_of.
    exists i. split; [exact Hi|].
    unfold found_for. rewrite Hfile, Hdir. now apply elem_of_app.
  - intros Hfile Hdir Hwild p Hp. apply find_pdf_files_elem_of.
    exists i. split; [exact Hi|].
    unfold found_for. rewrite Hfile, Hdir, Hwild. exact Hp.
Qed.

Lemma find_pdf_files_complete_witness :
  "Scan.Pdf" ∈ find_pdf_files Demo.env ["in"; "./Scan.Pdf"] /\
  "in/b.PDF" ∈ find_pdf_files Demo.env ["in"; "./Scan.Pdf"].
Proof.
  split.
  - assert (Hin : "./Scan.Pdf" ∈ ["in"; "./Scan.Pdf"])
      by apply list_elem_of_further, list_elem_of_here.
    destruct (find_pdf_files_complete Demo.env ["in"; "./Scan.Pdf"] "./Scan.Pdf" Hin)
      as (Hfile & _ & _).
    apply Hfile. reflexivity.
  - assert (Hin : "in" ∈ ["in"; "./Scan.Pdf"]) by apply list_elem_of_here.
    destruct (find_pdf_files_complete Demo.env ["in"; "./Scan.Pdf"] "in" Hin)
      as (_ & Hdir & _).
    apply Hdir; [reflexivity | reflexivity |]. right. apply list_elem_of_here.
Defined.

(* ===================================================================== *)
(** ** More on the batch orchestrator *)
(* ===================================================================== *)

(** Whatever its outcome, a conversion acts on its own file only. *)
Lemma convert_own_events (env : Env) (pdf_path : string)
    (output_dir : option string) (dpi quality : Z) (scale_factor : spec_float) :
  Forall (own_event pdf_path output_dir dpi quality)
    (fst (pdf_first_page_to_jpg env pdf_path output_dir dpi quality scale_factor)).
Proof.
  unfold pdf_first_page_to_jpg, pdf_first_page_to_jpg_body.
  destruct (path_exists env _) as [m|[|]]; simpl; try constructor.
  destruct (negb _); simpl; [constructor|].
  fold (output_path_for pdf_path output_dir).
  set (run_dir := match output_dir with None => _ | Some d => _ end).
  assert (Htr0 : Forall (own_event pdf_path output_dir dpi quality) (fst run_dir)).
  { subst run_dir. destruct output_dir as [d|]; simpl; [|constructor].
    destruct (mkdir env _) as [m|[]]; simpl;
      (constructor; [exists d; split; reflexivity | constructor]). }
  assert (Hpath :
    forall dir, snd run_dir = Ok dir ->
      PyPath.str (PyPath.joinpath dir (PyPath.stem (PyPath.Path pdf_path) +:+ ".jpg"))
      = output_path_for pdf_path output_dir).
  { subst run_dir. unfold output_path_for. destruct output_dir as [d|]; simpl.
    - destruct (mkdir env _) as [m|[]]; simpl; [discriminate|].
      now intros dir [= <-].
    - now intros dir [= <-]. }
  destruct run_dir as [tr0 r]. simpl in Htr0, Hpath.
  assert (Hevents : forall tail,
             Forall (own_event pdf_path output_dir dpi quality) tail ->
             Forall (own_event pdf_path output_dir dpi quality) (tr0 ++ tail)).
  { intros tail Htail. apply Forall_app. split; assumption. }
  destruct r as [m|dir]; simpl; [exact Htr0|].
  specialize (Hpath dir eq_refl).
  destruct (convert_from_path env _ dpi) as [m|[|page rest]]; simpl.
  1,2: apply Hevents; repeat constructor.
  destruct (PyFloat.int_of_product _ scale_factor) as [m|w]; simpl;
    [apply Hevents; repeat constructor|].
  destruct (PyFloat.int_of_product _ scale_factor) as [m|h]; simpl;
    [apply Hevents; repeat constructor|].
  destruct (resize env page (w, h)) as [m|img]; simpl;
    [apply Hevents; repeat constructor|].
  destruct (save_jpeg env img _ quality) as [m|[]]; simpl;
    apply Hevents; repeat constructor; exact Hpath.
Qed.

Lemma traces_of_tasks {A} (Q : string -> event -> Prop) (files : list string)
    (tasks : list (list event * A)) :
  Forall (fun r => exists f, f ∈ files /\ Forall (Q f) (fst r)) tasks ->
  Forall (fun e => exists f, f ∈ files /\ Q f e) (concat (map fst tasks)).
Proof.
  induction 1 as [|r rs (f & Hf & Hr) _ IH]; [constructor|].
  simpl. apply Forall_app. split; [|exact IH].
  eapply Forall_impl; [exact Hr|]. intros e He. exists f. auto.
Qed.

(** X8.  The batch acts on the resolved files only: every event of its
    trace is the creation of the output directory it was given, the
    rendering of a resolved file at the given [dpi], or the writing of the
    JPEG of a resolved file at its output path with the given [quality]. *)
Theorem batch_acts_on_resolved_files (env : Env) (input_paths : list string)
    (output_dir : option string) (dpi quality max_workers : Z)
    (scale_factor : spec_float) :
  Forall (fun e => exists pdf_file,
              pdf_file ∈ find_pdf_files env input_paths /\
              own_event pdf_file output_dir dpi quality e)
         (fst (process_pdfs_bulk env input_paths output_dir dpi quality
                 max_workers scale_factor)).
Proof.
  unfold process_pdfs_bulk.
  destruct (find_pdf_files env input_paths) as [|pdf_file pdf_files]; [constructor|].
  destruct (max_workers <=? 0); [constructor|].
  set (files := pdf_file :: pdf_files).
  set (task := fun pdf_file =>
                 pdf_first_page_to_jpg env pdf_file output_dir
                   dpi quality scale_factor).
  assert (Htasks : Forall (fun r => exists f, f ∈ files /\
                              Forall (own_event f output_dir dpi quality) (fst r))
                          (as_completed env (map task files))).
  { rewrite (as_completed_Permutation env (map task files)).
    apply Forall_forall. intros r Hr.
    apply list_elem_of_In, in_map_iff in Hr as (f & <- & Hf).
    exists f. split; [now apply list_elem_of_In|]. apply convert_own_events. }
  destruct (collect _) as [[results successful] failed]. simpl.
  apply (traces_of_tasks (fun f => own_event f output_dir dpi quality) files).
  exact Htasks.
Qed.



(* ===================================================================== *)
(** ** More on the command line *)
(* ===================================================================== *)


Lemma parse_numbers_take (arg : string) (rest : list string) (a : cli_args) :
  parse_numbers arg rest a = parse_numbers arg (take 2 rest) a.
Proof. destruct rest as [|q [|m rest]]; reflexivity. Qed.



Lemma parse_args_numbers (env : Env) (args : list string) (a : cli_args) :
  let numbers := parse_args env args a in
  match from_numbers args with
  | [] =>
      arg_dpi numbers = arg_dpi a /\ arg_quality numbers = arg_quality a /\
      arg_max_workers numbers = arg_max_workers a
  | n :: rest =>
      arg_dpi numbers = PyStr.int_of_digits n /\
      arg_quality numbers
      = match rest with
        | q :: _ => if PyStr.isdigit q then PyStr.int_of_digits q else arg_quality a
        | [] => arg_quality a
        end /\
      arg_max_workers numbers
      = match rest with
        | q :: m :: _ =>
            if (PyStr.isdigit q && PyStr.isdigit m)%bool
            then PyStr.int_of_digits m else arg_max_workers a
        | _ => arg_max_workers a
        end
  end.
Proof.
  revert a. induction args as [|arg rest IH]; intros a; simpl; [auto|].
  destruct (PyStr.isdigit arg) eqn:Harg.
  - unfold parse_numbers. destruct rest as [|q [|m rest]]; simpl;
      repeat match goal with |- context [PyStr.isdigit ?x] =>
               destruct (PyStr.isdigit x) end; simpl; auto.
  - fold (dir_like env arg). destruct (dir_like env arg); simpl;
      match goal with
      | |- context [parse_args env rest ?a'] => exact (IH a')
      end.
Qed.


(** X11.  After the first all-digit argument only the next two arguments
    are looked at: whatever follows, inputs included, is ignored. *)
Theorem parse_args_ignores_tail (env : Env) (before : list string) (n : string)
    (after : list string) (a : cli_args) :
  PyStr.isdigit n = true ->
  parse_args env (before ++ n :: after) a
  = parse_args env (before ++ n :: take 2 after) a.
Proof.
  intros Hn. revert a. induction before as [|arg before IH]; intros a; simpl.
  - rewrite Hn. rewrite (parse_numbers_take n after).
    rewrite (parse_numbers_take n (take 2 after)). now rewrite take_take.
  - destruct (PyStr.isdigit arg).
    + rewrite (parse_numbers_take arg (before ++ n :: after)).
      rewrite (parse_numbers_take arg (before ++ n :: take 2 after)).
      f_equal. destruct before as [|b1 [|b2 before]]; simpl; try reflexivity.
      now destruct after.
    + destruct (_ && _)%bool; apply IH.
Qed.

Lemma parse_args_ignores_tail_witness :
  parse_args Demo.env (["a.pdf"] ++ "300" :: ["90"; "8"; "b.pdf"; "in"]) initial_args
  = parse_args Demo.env (["a.pdf"] ++ "300" :: take 2 ["90"; "8"; "b.pdf"; "in"])
      initial_args.
Proof.
  apply (parse_args_ignores_tail Demo.env ["a.pdf"] "300" ["90"; "8"; "b.pdf"; "in"]).
  reflexivity.
Defined.

Lemma int_acc_nonneg (s : string) (acc : Z) :
  0 <= acc -> PyStr.all_digits s = true -> 0 <= PyStr.int_acc acc s.
Proof.
  revert acc. induction s as [|c s IH]; intros acc Hacc; simpl; [auto|].
  intros Hd. apply andb_true_iff in Hd as [Hc Hs].
  apply IH; [|exact Hs].
  unfold PyStr.is_digit_char in Hc. apply andb_true_iff in Hc as [Hlo _].
  apply Nat.leb_le in Hlo. lia.
Qed.

Lemma int_of_digits_nonneg (s : string) :
  PyStr.isdigit s = true -> 0 <= PyStr.int_of_digits s.
Proof.
  unfold PyStr.isdigit, PyStr.int_of_digits. destruct s; [discriminate|].
  now apply int_acc_nonneg.
Qed.

Lemma from_numbers_head (args : list string) (n : string) (rest : list string) :
  from_numbers args = n :: rest -> PyStr.isdigit n = true.
Proof.
  induction args as [|arg args IH]; simpl; [discriminate|].
  destruct (PyStr.isdigit arg) eqn:Harg; [|exact IH].
  now intros [= <- _].
Qed.



(** X12.  The numbers read from the command line are never negative: a
    sign makes an argument an input path, not a number. *)
Theorem parse_args_nonneg (env : Env) (args : list string) :
  let a := parse_args env args initial_args in
  0 <= arg_dpi a /\ 0 <= arg_quality a /\ 0 <= arg_max_workers a.
Proof.
  pose proof (parse_args_numbers env args initial_args) as Hn. cbn zeta in *.
  destruct (from_numbers args) as [|n rest] eqn:Hfrom.
  - destruct Hn as (-> & -> & ->). simpl. lia.
  - destruct Hn as (-> & -> & ->). simpl.
    split; [apply int_of_digits_nonneg, (from_numbers_head args n rest Hfrom)|].
    split.
    + destruct rest as [|q rest]; [lia|].
      destruct (PyStr.isdigit q) eqn:Hq; [now apply int_of_digits_nonneg|lia].
    + destruct rest as [|q [|m rest]]; try lia.
      destruct (PyStr.isdigit q); simpl; [|lia].
      destruct (PyStr.isdigit m) eqn:Hm; [now apply int_of_digits_nonneg|lia].
Qed.





(* ===================================================================== *)
(** ** More on the upload filter *)
(* ===================================================================== *)

Section LastDot.

Variable c : ascii.

Lemma rfind_from_none (s : string) (k : nat) :
  PyStr.rfind_from c k s = None <-> PyStr.contains c s = false.
Proof.
  revert k. induction s as [|d s IH]; intros k; simpl; [tauto|].
  destruct (Ascii.eqb c d).
  - destruct (PyStr.rfind_from c (S k) s); split; discriminate.
  - rewrite <- (IH (S k)).
    destruct (PyStr.rfind_from c (S k) s); split; congruence.
Qed.

(** The last occurrence splits the string, and nothing after it has [c]. *)
Lemma rfind_from_split (s : string) (k j : nat) :
  PyStr.rfind_from c k s = Some j ->
  exists s1 s2, s = s1 +:+ String c s2 /\ PyStr.contains c s2 = false /\
                j = (k + String.length s1)%nat.
Proof.
  revert k j. induction s as [|d s IH]; intros k j; simpl; [discriminate|].
  destruct (PyStr.rfind_from c (S k) s) as [j'|] eqn:Hrest.
  - intros [= <-]. apply IH in Hrest as (s1 & s2 & -> & Hs2 & ->).
    exists (String d s1), s2. simpl. repeat split; [exact Hs2 | lia].
  - apply rfind_from_none in Hrest.
    destruct (Ascii.eqb_spec c d) as [<-|Hne]; [|discriminate].
    intros [= <-]. exists "", s. simpl. repeat split; [exact Hrest|lia].
Qed.

Lemma rfind_from_last (s1 s2 : string) (k : nat) :
  PyStr.contains c s2 = false ->
  PyStr.rfind_from c k (s1 +:+ String c s2) = Some (k + String.length s1)%nat.
Proof.
  intros Hs2. revert k. induction s1 as [|d s1 IH]; intros k; simpl.
  - rewrite (proj2 (rfind_from_none s2 (S k)) Hs2).
    rewrite Ascii.eqb_refl. f_equal. lia.
  - rewrite (IH (S k)). f_equal. lia.
Qed.

Lemma contains_after (s1 s2 : string) :
  PyStr.contains c (s1 +:+ String c s2) = true.
Proof.
  induction s1 as [|e s1 IH]; simpl.
  - now rewrite Ascii.eqb_refl.
  - destruct (Ascii.eqb c e); [reflexivity|exact IH].
Qed.

End LastDot.

Lemma substring_all (s : string) : substring 0 (String.length s) s = s.
Proof. induction s as [|c s IH]; simpl; [reflexivity|now rewrite IH]. Qed.

Lemma length_append (s1 s2 : string) :
  String.length (s1 +:+ s2) = (String.length s1 + String.length s2)%nat.
Proof. induction s1 as [|c s1 IH]; simpl; [reflexivity|now rewrite IH]. Qed.

(** What follows position [length s1] of [s1 ++ c :: s2] is [s2]. *)
Lemma substring_after (s1 s2 : string) (c : ascii) :
  substring (S (String.length s1))
            (String.length (s1 +:+ String c s2) - S (String.length s1))
            (s1 +:+ String c s2)
  = s2.
Proof.
  induction s1 as [|d s1 IH]; simpl.
  - rewrite Nat.sub_0_r. apply substring_all.
  - simpl in IH. exact IH.
Qed.

Lemma substring_from (s1 s2 : string) (c : ascii) :
  substring (String.length s1)
            (String.length (s1 +:+ String c s2) - String.length s1)
            (s1 +:+ String c s2)
  = String c s2.
Proof.
  induction s1 as [|d s1 IH]; simpl.
  - now rewrite substring_all.
  - exact IH.
Qed.

Lemma allowed_file_ext (stem ext : string) :
  PyStr.contains "." ext = false -> PyStr.lower ext = "pdf" ->
  allowed_file (stem +:+ String "." ext) = true.
Proof.
  intros Hext Hpdf. unfold allowed_file, PyStr.after_last, PyStr.rfind.
  rewrite contains_after. rewrite (rfind_from_last "." stem ext 0 Hext).
  simpl Nat.add. rewrite substring_after, Hpdf. reflexivity.
Qed.

Lemma allowed_file_inv (f : string) :
  allowed_file f = true ->
  exists stem ext, f = stem +:+ String "." ext /\
                   PyStr.contains "." ext = false /\ PyStr.lower ext = "pdf".
Proof.
  unfold allowed_file, PyStr.after_last, PyStr.rfind. intros Hf.
  apply andb_true_iff in Hf as [Hdot Hext].
  destruct (PyStr.rfind_from "." 0 f) as [i|] eqn:Hlast.
  - apply rfind_from_split in Hlast as (stem & ext & -> & Hnodot & ->).
    exists stem, ext. repeat split; [exact Hnodot|].
    simpl Nat.add in Hext. rewrite substring_after in Hext.
    simpl in Hext. rewrite orb_false_r in Hext. now apply String.eqb_eq.
  - apply rfind_from_none in Hlast. congruence.
Qed.

(** X15.  [allowed_file] accepts exactly the names [stem.ext] whose
    extension after the last dot is [pdf] in any letter case; the stem may
    be empty or have dots of its own. *)
Theorem allowed_file_iff (f : string) :
  allowed_file f = true <->
  exists stem ext, f = stem +:+ String "." ext /\
                   PyStr.contains "." ext = false /\ PyStr.lower ext = "pdf".
Proof.
  split; [apply allowed_file_inv|].
  intros (stem & ext & -> & Hext & Hpdf). now apply allowed_file_ext.
Qed.

(** X16.  The upload filter is no stricter than the converter: a path
    whose suffix passes the converter's test has a name that
    [allowed_file] accepts. *)
Theorem converter_suffix_allowed (p : string) :
  PyStr.lower (PyPath.suffix (PyPath.Path p)) = ".pdf" ->
  allowed_file (PyPath.name (PyPath.Path p)) = true.
Proof.
  unfold PyPath.suffix, PyPath.suffix_index, PyStr.rfind.
  set (n := PyPath.name (PyPath.Path p)).
  destruct (PyStr.rfind_from "." 0 n) as [i|] eqn:Hlast; [|discriminate].
  destruct (_ && _)%bool; [|discriminate].
  apply rfind_from_split in Hlast as (stem & ext & Hn & Hnodot & ->).
  rewrite Hn. simpl Nat.add. rewrite substring_from. simpl.
  intros [= Hpdf]. now apply allowed_file_ext.
Qed.

Lemma converter_suffix_allowed_witness :
  allowed_file (PyPath.name (PyPath.Path "uploads/Scan.v2.PDF")) = true.
Proof. apply (converter_suffix_allowed "uploads/Scan.v2.PDF"). reflexivity. Defined.

(** The converse fails: the upload filter accepts the name [.pdf], which
    has no suffix for the converter. *)
Remark allowed_file_hidden_pdf :
  allowed_file ".pdf" = true /\ PyPath.suffix (PyPath.Path ".pdf") = "".
Proof. split; reflexivity. Qed.

(* ===================================================================== *)
(** ** More on the upload handler *)
(* ===================================================================== *)

Lemma save_loop_all (env : Env) (files : list Upload) :
  Forall (saves env) (accepted files) ->
  save_uploads env files
  = (map (save_event env) (accepted files),
     Ok (map (upload_path env) (accepted files))).
Proof.
  unfold accepted. induction files as [|file rest IH]; intros Hok; [reflexivity|].
  cbn [save_uploads]. destruct (allowed_file (filename file)) eqn:Hallowed.
  - rewrite (allowed_file_truthy file Hallowed). cbn [andb].
    rewrite (filter_cons_True _ file rest) in Hok |- * by exact Hallowed.
    apply Forall_cons in Hok as [Hfile Hrest].
    fold (upload_path env file). unfold saves in Hfile. rewrite Hfile.
    rewrite (IH Hrest). simpl. now rewrite app_nil_r.
  - rewrite andb_false_r.
    rewrite (filter_cons_False _ file rest) in Hok |- * by congruence.
    now apply IH.
Qed.

(** X17.  When every accepted upload can be stored, the saving loop stores
    them all, in the order of the request, and returns their paths
    [uploads/<secure name>] in that order. *)
Theorem save_uploads_all (env : Env) (files : list Upload) :
  Forall (saves env) (accepted files) ->
  save_uploads env files
  = (map (save_event env) (accepted files),
     Ok (map (upload_path env) (accepted files))).
Proof.
  apply save_loop_all.
Qed.

Lemma save_uploads_all_witness :
  save_uploads Demo.env [mkUpload "x.txt" 1; mkUpload "a.pdf" 2; mkUpload "b.PDF" 3]
  = (map (save_event Demo.env)
         (accepted [mkUpload "x.txt" 1; mkUpload "a.pdf" 2; mkUpload "b.PDF" 3]),
     Ok (map (upload_path Demo.env)
             (accepted [mkUpload "x.txt" 1; mkUpload "a.pdf" 2; mkUpload "b.PDF" 3]))).
Proof.
  apply (save_uploads_all Demo.env).
  vm_compute. repeat constructor.
Defined.

(** X18.  The saving loop stops at the first upload that cannot be
    stored: the accepted uploads before it have been stored, it has been
    attempted, the ones after it are not touched, and its exception is
    what the loop throws. *)
Theorem save_uploads_first_failure (env : Env) (files : list Upload)
    (before : list Upload) (file : Upload) (after : list Upload) (msg : string) :
  accepted files = before ++ file :: after ->
  Forall (saves env) before ->
  upload_save env file (upload_path env file) = Raise msg ->
  save_uploads env files
  = (map (save_event env) (before ++ [file]), Raise msg).
Proof.
  unfold accepted. revert before.
  induction files as [|u rest IH]; intros before Hsplit Hbefore Hfail.
  - destruct before; discriminate.
  - cbn [save_uploads]. destruct (allowed_file (filename u)) eqn:Hallowed.
    + rewrite (allowed_file_truthy u Hallowed). cbn [andb].
      rewrite (filter_cons_True _ u rest) in Hsplit by exact Hallowed.
      fold (upload_path env u).
      destruct before as [|b before]; simpl in Hsplit; injection Hsplit as -> Hrest.
      * rewrite Hfail. reflexivity.
      * apply Forall_cons in Hbefore as [Hb Hbefore]. unfold saves in Hb.
        rewrite Hb. rewrite (IH before Hrest Hbefore Hfail). reflexivity.
    + rewrite andb_false_r.
      rewrite (filter_cons_False _ u rest) in Hsplit by congruence.
      now apply IH.
Qed.

Lemma save_uploads_first_failure_witness :
  save_uploads demo_full_disk
    [mkUpload "a.pdf" 1; mkUpload "x.txt" 2; mkUpload "b.pdf" 3; mkUpload "c.pdf" 4]
  = (map (save_event demo_full_disk) ([mkUpload "a.pdf" 1] ++ [mkUpload "b.pdf" 3]),
     Raise "[Errno 28] No space left on device").
Proof.
  apply (save_uploads_first_failure demo_full_disk _ [mkUpload "a.pdf" 1]
           (mkUpload "b.pdf" 3) [mkUpload "c.pdf" 4]).
  - vm_compute. reflexivity.
  - repeat constructor.
  - reflexivity.
Defined.

(** The converting loop counts what it converts. *)
Lemma convert_uploads_counts (env : Env) (uploaded_files : list string)
    (dpi quality : Z) (scale_factor : spec_float) :
  let run := convert_uploads env uploaded_files dpi quality scale_factor in
  length (fst (snd run)) = length uploaded_files /\
  length (snd (snd run)) = length (List.filter is_success_entry (fst (snd run))).
Proof.
  induction uploaded_files as [|pdf_path rest [IHlen IHok]]; [split; reflexivity|].
  cbn zeta in *. cbn [convert_uploads].
  destruct (pdf_first_page_to_jpg env pdf_path (Some OUTPUT_FOLDER) dpi quality
              scale_factor) as [tr [[success original_path] result]].
  destruct (convert_uploads env rest dpi quality scale_factor)
    as [tr' [results converted_files]].
  simpl in IHlen, IHok. destruct success; simpl; split; congruence.
Qed.

(** X19.  A 200 answer says [success] and counts consistently:
    [total_count] is the number of entries of [results] and is at least 1,
    [converted_count] is the number of entries whose status is [success],
    so it is at most [total_count]. *)
Theorem upload_counts (env : Env) (request : Request) :
  snd (snd (upload_files env request)) = 200 ->
  exists results total converted,
    json_get "success" (fst (snd (upload_files env request))) = Some (JBool true) /\
    json_get "results" (fst (snd (upload_files env request))) = Some (JArray results) /\
    json_get "total_count" (fst (snd (upload_files env request)))
    = Some (JNumber total) /\
    json_get "converted_count" (fst (snd (upload_files env request)))
    = Some (JNumber converted) /\
    total = Z.of_nat (length results) /\
    converted = Z.of_nat (length (List.filter is_success_entry results)) /\
    1 <= total /\ 0 <= converted <= total.
Proof.
  pose proof (upload_files_run env request) as Hrun.
  destruct (upload_files env request) as [tr resp]. simpl in *.
  destruct Hrun as [body | msg Hfield | files trs msg Hfiles Hsave
                   | files trs Hfiles Hsave
                   | files trs uploaded_files dpi quality scale_factor
                       Hfiles Hsave Hsome]; simpl; try discriminate.
  intros _.
  destruct (convert_uploads_counts env uploaded_files dpi quality scale_factor)
    as [Hlen Hok].
  cbn zeta in Hlen, Hok.
  destruct (convert_uploads env uploaded_files dpi quality scale_factor)
    as [trc [results converted_files]]. simpl in *.
  assert (Hle : (length converted_files <= length results)%nat)
    by (rewrite Hok; apply filter_length_le).
  assert (Hone : (1 <= length uploaded_files)%nat)
    by (destruct uploaded_files; [contradiction|simpl; lia]).
  exists results, (Z.of_nat (length uploaded_files)),
         (Z.of_nat (length converted_files)).
  repeat split; try reflexivity; lia.
Qed.

Lemma upload_counts_witness :
  let request :=
    mkRequest (Some [mkUpload "a.pdf" 1; mkUpload "x.txt" 2])
              (Ok 200) (Ok 95) (Ok PyFloat.f0_6) in
  exists results total converted,
    json_get "success" (fst (snd (upload_files Demo.env request))) = Some (JBool true) /\
    json_get "results" (fst (snd (upload_files Demo.env request)))
    = Some (JArray results) /\
    json_get "total_count" (fst (snd (upload_files Demo.env request)))
    = Some (JNumber total) /\
    json_get "converted_count" (fst (snd (upload_files Demo.env request)))
    = Some (JNumber converted) /\
    total = Z.of_nat (length results) /\
    converted = Z.of_nat (length (List.filter is_success_entry results)) /\
    1 <= total /\ 0 <= converted <= total.
Proof.
  intros request. apply (upload_counts Demo.env request). vm_compute. reflexivity.
Defined.

(** An answer that is not a 200 is an object with the one field [error]. *)
Lemma upload_error_body (env : Env) (request : Request) :
  snd (snd (upload_files env request)) <> 200 ->
  exists msg, fst (snd (upload_files env request)) = JObject [("error", JString msg)].
Proof.
  unfold upload_files, upload_files_body.
  destruct (req_files request) as [files|]; simpl; [|eauto].
  destruct (bool_decide (files = []) || forallb _ files)%bool; simpl; [eauto|].
  destruct (form_dpi request) as [m|dpi]; simpl; [eauto|].
  destruct (form_quality request) as [m|quality]; simpl; [eauto|].
  destruct (form_scale_factor request) as [m|scale_factor]; simpl; [eauto|].
  destruct (negb _); simpl; [eauto|].
  destruct (negb _); simpl; [eauto|].
  destruct (negb _); simpl; [eauto|].
  destruct (save_uploads env files) as [trs [m|[|pdf_path rest]]].
  - simpl. eauto.
  - simpl. eauto.
  - lazy beta iota delta [bind try_except].
    generalize (convert_uploads env (pdf_path :: rest) dpi quality scale_factor).
    intros [trc [results converted_files]]. simpl. intros Hne. contradiction.
Qed.

(** X20.  The handler answers 200, 400 or 500.  An answer that is not a
    200 is an object with the single field [error] and means that nothing
    was converted: the trace holds the cleanup and saved uploads only.  A
    500 comes from a form field that is not a number or from an upload
    that could not be stored. *)
Theorem upload_answers (env : Env) (request : Request) :
  let run := upload_files env request in
  (snd (snd run) = 200 \/ snd (snd run) = 400 \/ snd (snd run) = 500) /\
  (snd (snd run) <> 200 ->
   (exists msg, fst (snd run) = JObject [("error", JString msg)]) /\
   Forall upload_event (fst run)) /\
  (snd (snd run) = 500 ->
   (exists msg, fst (snd run) = JObject [("error", JString msg)] /\
      (form_dpi request = Raise msg \/ form_quality request = Raise msg \/
       form_scale_factor request = Raise msg \/
       exists files trs,
         req_files request = Some files /\
         save_uploads env files = (trs, Raise msg)))).
Proof.
  cbn zeta.
  pose proof (upload_error_body env request) as Hbody.
  pose proof (upload_files_run env request) as Hrun.
  destruct (upload_files env request) as [tr resp]. simpl in *.
  destruct Hrun as [body | msg Hfield | files trs msg Hfiles Hsave
                   | files trs Hfiles Hsave
                   | files trs uploaded_files dpi quality scale_factor
                       Hfiles Hsave Hsome]; simpl in *.
  - split; [auto|]. split; [|discriminate].
    intros Hne. split; [now apply Hbody|]. repeat constructor.
  - split; [auto|]. split.
    + intros Hne. split; [now apply Hbody|]. repeat constructor.
    + intros _. exists msg. split; [reflexivity|]. tauto.
  - destruct (save_uploads_accepted env files) as [Hsaved _].
    rewrite Hsave in Hsaved. simpl in Hsaved.
    split; [auto|]. split.
    + intros Hne. split; [now apply Hbody|]. constructor; [exact I|].
      eapply Forall_impl; [exact Hsaved|]. now intros e (f & _ & ->).
    + intros _. exists msg. split; [reflexivity|]. eauto 10.
  - destruct (save_uploads_accepted env files) as [Hsaved _].
    rewrite Hsave in Hsaved. simpl in Hsaved.
    split; [auto|]. split; [|discriminate].
    intros Hne. split; [now apply Hbody|]. constructor; [exact I|].
    eapply Forall_impl; [exact Hsaved|]. now intros e (f & _ & ->).
  - split; [auto|]. split; [|discriminate]. intros Hne. contradiction.
Qed.

Lemma upload_answers_witness :
  let request :=
    mkRequest (Some [mkUpload "a.pdf" 1; mkUpload "b.pdf" 2])
              (Ok 200) (Ok 95) (Ok PyFloat.f0_6) in
  exists msg,
    fst (snd (upload_files demo_full_disk request)) = JObject [("error", JString msg)] /\
    (form_dpi request = Raise msg \/ form_quality request = Raise msg \/
     form_scale_factor request = Raise msg \/
     exists files trs,
       req_files request = Some files /\
       save_uploads demo_full_disk files = (trs, Raise msg)).
Proof.
  intros request.
  destruct (upload_answers demo_full_disk request) as (_ & _ & H500).
  apply H500. vm_compute. reflexivity.
Defined.

Lemma accepted_selected (files : list Upload) :
  accepted files <> [] ->
  (bool_decide (files = [])
   || forallb (fun file => String.eqb (filename file) "") files)%bool = false.
Proof.
  unfold accepted. intros Hsome. apply orb_false_iff. split.
  - apply bool_decide_eq_false. intros ->. now apply Hsome.
  - induction files as [|file rest IH]; [now contradiction Hsome|]. simpl.
    destruct (allowed_file (filename file)) eqn:Hallowed.
    + pose proof (allowed_file_truthy file Hallowed) as Ht. unfold truthy in Ht.
      destruct (String.eqb (filename file) ""); [discriminate|reflexivity].
    + rewrite (filter_cons_False _ file rest) in Hsome by congruence.
      rewrite (IH Hsome). apply andb_false_r.
Qed.

(** X21.  The files are looked at before the form fields: a request
    without the key [files], or whose files all have an empty name, is
    answered 400 after the cleanup alone, even when a form field is not a
    number. *)
Theorem upload_without_files (env : Env) (request : Request) :
  (req_files request = None ->
   upload_files env request = ([EvCleanup], error_response "No files uploaded" 400)) /\
  (forall files,
      req_files request = Some files ->
      Forall (fun file => filename file = "") files ->
      upload_files env request
      = ([EvCleanup], error_response "No files selected" 400)).
Proof.
  unfold upload_files, upload_files_body. split.
  - intros ->. reflexivity.
  - intros files -> Hempty. simpl.
    assert (Hall : forallb (fun file => String.eqb (filename file) "") files = true).
    { induction Hempty as [|file rest Hfile _ IH]; [reflexivity|].
      simpl. now rewrite Hfile, IH. }
    rewrite Hall, orb_true_r. reflexivity.
Qed.

Lemma upload_without_files_witness :
  upload_files Demo.env
    (mkRequest (Some [mkUpload "" 1]) (Raise "invalid literal for int()") (Ok 95)
               (Ok PyFloat.f0_6))
  = ([EvCleanup], error_response "No files selected" 400).
Proof.
  destruct (upload_without_files Demo.env
              (mkRequest (Some [mkUpload "" 1]) (Raise "invalid literal for int()")
                         (Ok 95) (Ok PyFloat.f0_6))) as [_ Hempty].
  apply (Hempty [mkUpload "" 1]); [reflexivity|]. repeat constructor.
Defined.

(** X22.  A request is served when its fields are in range, bounds
    included ([72 <= dpi <= 600], [1 <= quality <= 100],
    [0.1 <= scale_factor <= 2.0]), at least one file is accepted and every
    accepted file can be stored: the answer is a 200, after the cleanup,
    the saving of the accepted files and their conversion in order, and
    [total_count] is the number of accepted files. *)
Theorem upload_serves_valid_request (env : Env) (request : Request)
    (files : list Upload) (dpi quality : Z) (scale_factor : spec_float) :
  req_files request = Some files ->
  form_dpi request = Ok dpi ->
  form_quality request = Ok quality ->
  form_scale_factor request = Ok scale_factor ->
  72 <= dpi <= 600 ->
  1 <= quality <= 100 ->
  PyFloat.leb PyFloat.f0_1 scale_factor = true ->
  PyFloat.leb scale_factor PyFloat.f2_0 = true ->
  accepted files <> [] ->
  Forall (saves env) (accepted files) ->
  let stored := map (upload_path env) (accepted files) in
  fst (upload_files env request)
  = EvCleanup :: map (save_event env) (accepted files)
    ++ fst (convert_uploads env stored dpi quality scale_factor) /\
  snd (snd (upload_files env request)) = 200 /\
  json_get "total_count" (fst (snd (upload_files env request)))
  = Some (JNumber (Z.of_nat (length (accepted files)))).
Proof.
  intros Hfiles Hd Hq Hs Hdpi Hquality Hlo Hhi Hsome Hsaves stored.
  unfold upload_files, upload_files_body.
  rewrite Hfiles. simpl. rewrite (accepted_selected files Hsome). simpl.
  rewrite Hd, Hq, Hs. simpl.
  destruct (Z.leb_spec 72 dpi); [|lia]. destruct (Z.leb_spec dpi 600); [|lia].
  destruct (Z.leb_spec 1 quality); [|lia]. destruct (Z.leb_spec quality 100); [|lia].
  rewrite Hlo, Hhi. simpl.
  rewrite (save_loop_all env files Hsaves). fold stored.
  assert (Hstored : stored <> []).
  { subst stored. destruct (accepted files); [contradiction|discriminate]. }
  assert (Hlen : length stored = length (accepted files))
    by (subst stored; apply length_map).
  lazy beta iota delta [bind try_except].
  destruct stored as [|pdf_path rest] eqn:Hst; [contradiction|].
  generalize (convert_uploads env (pdf_path :: rest) dpi quality scale_factor).
  intros [trc [results converted_files]]. cbn [fst snd].
  repeat split. simpl. simpl in Hlen. now rewrite Hlen.
Qed.

Lemma upload_serves_valid_request_witness :
  let request :=
    mkRequest (Some [mkUpload "notes.txt" 1; mkUpload "a.pdf" 2])
              (Ok 72) (Ok 100) (Ok PyFloat.f0_1) in
  let stored := map (upload_path Demo.env)
                    (accepted [mkUpload "notes.txt" 1; mkUpload "a.pdf" 2]) in
  fst (upload_files Demo.env request)
  = EvCleanup
    :: map (save_event Demo.env) (accepted [mkUpload "notes.txt" 1; mkUpload "a.pdf" 2])
    ++ fst (convert_uploads Demo.env stored 72 100 PyFloat.f0_1) /\
  snd (snd (upload_files Demo.env request)) = 200 /\
  json_get "total_count" (fst (snd (upload_files Demo.env request)))
  = Some (JNumber (Z.of_nat (length (accepted [mkUpload "notes.txt" 1;
                                               mkUpload "a.pdf" 2])))).
Proof.
  intros request.
  apply (upload_serves_valid_request Demo.env request
           [mkUpload "notes.txt" 1; mkUpload "a.pdf" 2] 72 100 PyFloat.f0_1);
    try reflexivity; try lia.
  - vm_compute. discriminate.
  - vm_compute. repeat constructor.
Defined.

(* ===================================================================== *)
(** ** How runs end *)
(* ===================================================================== *)



(** X24.  The results of a batch name the resolved files, each once: the
    sources they report are, up to the order of completion, the normalised
    paths of the resolved files. *)
Theorem batch_results_name_files (env : Env) (input_paths : list string)
    (output_dir : option string) (dpi quality max_workers : Z)
    (scale_factor : spec_float) :
  0 < max_workers ->
  exists tr summary results,
    process_pdfs_bulk env input_paths output_dir dpi quality max_workers scale_factor
    = (tr, Ok summary) /\
    summary !! "results" = Some (VResults results) /\
    map (fun o : outcome => snd (fst o)) results
    ≡ₚ map (fun pdf_file => PyPath.str (PyPath.Path pdf_file))
           (find_pdf_files env input_paths).
Proof.
  intros Hworkers.
  destruct (process_pdfs_bulk_summary env input_paths output_dir dpi quality
              max_workers scale_factor Hworkers)
    as (tr & summary & results & Hrun & _ & _ & _ & Hres & _ & Hperm).
  exists tr, summary, results. split; [exact Hrun|]. split; [exact Hres|].
  rewrite (Permutation_map (fun o : outcome => snd (fst o)) Hperm).
  rewrite map_map.
  erewrite map_ext; [reflexivity|]. intros f. simpl.
  destruct (convert_names_source env f output_dir dpi quality scale_factor)
    as (tr' & success & message & -> & _).
  reflexivity.
Qed.

Lemma batch_results_name_files_witness :
  exists tr summary results,
    process_pdfs_bulk Demo.env ["in"; "b.pdf"] (Some "out") 200 95 3 PyFloat.f0_6
    = (tr, Ok summary) /\
    summary !! "results" = Some (VResults results) /\
    map (fun o : outcome => snd (fst o)) results
    ≡ₚ map (fun pdf_file => PyPath.str (PyPath.Path pdf_file))
           (find_pdf_files Demo.env ["in"; "b.pdf"]).
Proof.
  apply (batch_results_name_files Demo.env ["in"; "b.pdf"] (Some "out") 200 95 3
           PyFloat.f0_6).
  lia.
Defined.
